(** * Snow-removal posts: the sync script (main.py) and the repair script
    (fill_missing_rues.py)

    A shallow embedding of the two Python scripts and the properties of their
    pipelines.  Python values that travel through the scripts (decoded JSON,
    CSV cells) are an inductive type; the network, the clock and the output
    file are an explicit world threaded through a small state-and-exception
    monad.  Every request the scripts send is recorded in the world's trace,
    in order, so that "no request is made" is a statement about the trace.

    What is outside the embedding: the text of URLs and of the CSV file (a
    file is the list of rows [csv.DictReader] yields, and the list of records
    handed to the writer), records longer than the header, [print], and
    exceptions that are not subclasses of [Exception].  The [while True] loop
    of the sync script takes fuel. *)

From Stdlib Require Import ZArith QArith Ascii String List Lia.
From stdpp Require Import base option list strings gmap pretty relations.

Set Warnings "-register-all".

(** ** Python primitives the scripts rely on

    Numbers (Python [int] and [float], not told apart), their formatting and
    parsing, [str] of a container and [datetime] are library code: they are
    an interface here.  Strings are ASCII text. *)

Inductive value (number : Type) : Type :=
  | VNone
  | VBool (b : bool)
  | VNum (x : number)
  | VStr (s : string)
  | VList (items : list (value number))
  | VDict (entries : list (string * value number)).

Arguments VNone {number}.
Arguments VBool {number} b.
Arguments VNum {number} x.
Arguments VStr {number} s.
Arguments VList {number} items.
Arguments VDict {number} entries.

(** The exceptions that occur; all of them are subclasses of [Exception]. *)
Inductive exn : Type :=
  | AttributeError
  | TypeError
  | ValueError
  | IndexError
  | FileNotFoundError
  | URLError
  | JSONDecodeError
  | OtherError (msg : string).

Inductive result (A : Type) : Type :=
  | Ok (a : A)
  | Raise (e : exn).

Arguments Ok {A} a.
Arguments Raise {A} e.

Class Python : Type := {
  number : Type;
  (** [x == 0], the falsiness of a number *)
  number_is_zero : number -> bool;
  (** [str(x)] *)
  number_str : number -> string;
  (** [format(x, ".6f")], the text of [x] with six decimals *)
  number_format_6f : number -> string;
  (** [float(True)] and [float(False)] *)
  number_of_bool : bool -> number;
  (** [float(s)] for a string; [None] stands for [ValueError] *)
  float_of_string : string -> option number;
  (** [str(v)] for a list or a dict *)
  container_str : value number -> string;
  (** [datetime.utcfromtimestamp(ms / 1000).isoformat()] *)
  utc_isoformat : value number -> result string;
}.

Section Values.
Context {Py : Python}.

Abbreviation val := (value number).

(** A Python [dict] with string keys keeps insertion order: an association
    list whose keys are pairwise distinct. *)
Abbreviation dict := (list (string * val)).

Fixpoint dict_get (d : dict) (k : string) : option val :=
  match d with
  | [] => None
  | (k', v) :: rest => if String.eqb k' k then Some v else dict_get rest k
  end.

(** [d.get(k, default)] *)
Definition dict_get_default (d : dict) (k : string) (default : val) : val :=
  match dict_get d k with
  | Some v => v
  | None => default
  end.

(** [d[k] = v]: an existing key keeps its place, a new key goes last. *)
Fixpoint dict_set (d : dict) (k : string) (v : val) : dict :=
  match d with
  | [] => [(k, v)]
  | (k', v') :: rest =>
      if String.eqb k' k then (k', v) :: rest else (k', v') :: dict_set rest k v
  end.

(** [d.keys()] *)
Definition dict_keys (d : dict) : list string := map fst d.

(** Truth value of a Python object. *)
Definition truthy (v : val) : bool :=
  match v with
  | VNone => false
  | VBool b => b
  | VNum x => negb (number_is_zero x)
  | VStr s => negb (String.eqb s "")
  | VList items => match items with [] => false | _ => true end
  | VDict entries => match entries with [] => false | _ => true end
  end.

(** [a or b] on already evaluated operands. *)
Definition py_or (a b : val) : val := if truthy a then a else b.

Definition is_none (v : val) : bool :=
  match v with
  | VNone => true
  | _ => false
  end.

(** [v.get(k, default)]: only a dict has [get]. *)
Definition py_get (v : val) (k : string) (default : val) : result val :=
  match v with
  | VDict d => Ok (dict_get_default d k default)
  | _ => Raise AttributeError
  end.

Fixpoint chars (s : string) : list val :=
  match s with
  | EmptyString => []
  | String c rest => VStr (String c EmptyString) :: chars rest
  end.

(** The items [list.extend(v)] appends: a list gives its items, a string its
    characters, a dict its keys; anything else is not iterable. *)
Definition py_iter (v : val) : result (list val) :=
  match v with
  | VList items => Ok items
  | VStr s => Ok (chars s)
  | VDict entries => Ok (map (fun kv => VStr (fst kv)) entries)
  | _ => Raise TypeError
  end.

(** [len(v)] *)
Definition py_len (v : val) : result nat :=
  match v with
  | VList items => Ok (length items)
  | VStr s => Ok (String.length s)
  | VDict entries => Ok (length entries)
  | _ => Raise TypeError
  end.

(** [str(v)] *)
Definition py_str (v : val) : string :=
  match v with
  | VNone => "None"
  | VBool true => "True"
  | VBool false => "False"
  | VNum x => number_str x
  | VStr s => s
  | VList _ | VDict _ => container_str v
  end.

(** [f"{v:.6f}"]: numbers format (a bool is an int); other objects raise. *)
Definition format_6f (v : val) : result string :=
  match v with
  | VNum x => Ok (number_format_6f x)
  | VBool true => Ok "1.000000"
  | VBool false => Ok "0.000000"
  | VStr _ => Raise ValueError
  | _ => Raise TypeError
  end.

(** [float(v)] *)
Definition py_float (v : val) : result number :=
  match v with
  | VNum x => Ok x
  | VBool b => Ok (number_of_bool b)
  | VStr s =>
      match float_of_string s with
      | Some x => Ok x
      | None => Raise ValueError
      end
  | _ => Raise TypeError
  end.

(** [s[i:j]] on a list *)
Definition py_slice {A : Type} (l : list A) (i j : nat) : list A :=
  take (j - i) (drop i l).

(** [range(start, stop, step)] for a positive step, as the list it yields. *)
Definition py_range (start stop step : nat) : list nat :=
  map (fun k => start + k * step) (seq 0 ((stop - start + (step - 1)) / step)).

(** *** ASCII text: [str.strip] and [str.upper] *)

Definition is_space (c : ascii) : bool :=
  let n := nat_of_ascii c in
  ((9 <=? n) && (n <=? 13)) || ((28 <=? n) && (n <=? 32)).

Fixpoint lstrip (s : string) : string :=
  match s with
  | EmptyString => EmptyString
  | String c rest => if is_space c then lstrip rest else s
  end.

Fixpoint rstrip (s : string) : string :=
  match s with
  | EmptyString => EmptyString
  | String c rest =>
      match rstrip rest with
      | EmptyString => if is_space c then EmptyString else String c EmptyString
      | rest' => String c rest'
      end
  end.

Definition strip (s : string) : string := rstrip (lstrip s).

Definition upper_char (c : ascii) : ascii :=
  let n := nat_of_ascii c in
  if (97 <=? n) && (n <=? 122) then ascii_of_nat (n - 32) else c.

Fixpoint upper (s : string) : string :=
  match s with
  | EmptyString => EmptyString
  | String c rest => String (upper_char c) (upper rest)
  end.

(** [v.strip()]: only a string has [strip]. *)
Definition py_strip (v : val) : result string :=
  match v with
  | VStr s => Ok (strip s)
  | _ => Raise AttributeError
  end.

End Values.

Abbreviation val := (value number).
Abbreviation dict := (list (string * val)).

(** ** The world: requests, the clock and the output file *)

Section World.
Context {Py : Python}.

(** What the scripts do to the outside, in the order they do it.  A request
    is recorded when it is sent, whether it succeeds or not. *)
Inductive event : Type :=
  | FetchPage (offset limit : nat)
  | Project (points : list val)
  | ReverseGeocode (lon lat : val)
  | Sleep (seconds : Q).

(** The services answer a request knowing everything that happened before
    it: a decoded JSON document, or the exception [urlopen] or [json.load]
    raises. *)
Definition server : Type := list event -> event -> result val.

(** [written] is the content of posts.csv as rewritten by this run, one
    record per [writerow]; [None] until the file is opened for writing. *)
Record world : Type := World {
  trace : list event;
  written : option (list (list val));
}.

Inductive outcome (A : Type) : Type :=
  | Ret (a : A)
  | Exc (e : exn)
  | OutOfFuel.

Definition M (A : Type) : Type := world -> outcome A * world.

Definition ret {A : Type} (a : A) : M A := fun w => (Ret _ a, w).

Definition raise {A : Type} (e : exn) : M A := fun w => (Exc _ e, w).

Definition out_of_fuel {A : Type} : M A := fun w => (OutOfFuel _, w).

Definition bind {A B : Type} (m : M A) (k : A -> M B) : M B :=
  fun w =>
    match m w with
    | (Ret _ a, w') => k a w'
    | (Exc _ e, w') => (Exc _ e, w')
    | (OutOfFuel _, w') => (OutOfFuel _, w')
    end.

Definition lift {A : Type} (r : result A) : M A :=
  match r with
  | Ok a => ret a
  | Raise e => raise e
  end.

(** [try: body / except Exception: handler] *)
Definition try_except {A : Type} (body : M A) (handler : exn -> M A) : M A :=
  fun w =>
    match body w with
    | (Exc _ e, w') => handler e w'
    | other => other
    end.

(** [urlopen] followed by [json.load] *)
Definition request (srv : server) (ev : event) : M val :=
  fun w =>
    let w' := World (trace w ++ [ev]) (written w) in
    match srv (trace w) ev with
    | Ok data => (Ret _ data, w')
    | Raise e => (Exc _ e, w')
    end.

(** [time.sleep(seconds)] *)
Definition sleep (seconds : Q) : M unit :=
  fun w => (Ret _ tt, World (trace w ++ [Sleep seconds]) (written w)).

(** [open(OUTPUT_CSV, "w")] truncates the file. *)
Definition open_for_writing : M unit :=
  fun w => (Ret _ tt, World (trace w) (Some [])).

(** [writer.writerow(record)] *)
Definition writerow (record : list val) : M unit :=
  fun w =>
    (Ret _ tt,
     World (trace w)
       (match written w with
        | Some records => Some (records ++ [record])
        | None => None
        end)).

End World.

Arguments Ret {A} a.
Arguments Exc {A} e.
Arguments OutOfFuel {A}.

Notation "x <- m ;; k" := (bind m (fun x => k))
  (at level 100, m at next level, right associativity).
Notation "m ;;; k" := (bind m (fun _ => k))
  (at level 100, right associativity).

Definition and_then {A B : Type} (r : result A) (k : A -> result B) : result B :=
  match r with
  | Ok a => k a
  | Raise e => Raise e
  end.

Notation "x <-? r ;; k" := (and_then r (fun x => k))
  (at level 100, r at next level, right associativity).

(** [for x in l: f(x)], collecting what the body returns. *)
Fixpoint for_each {Py : Python} {A B : Type} (f : A -> M B) (l : list A)
  : M (list B) :=
  match l with
  | [] => ret []
  | x :: rest => y <- f x ;; ys <- for_each f rest ;; ret (y :: ys)
  end.

(** ** main.py: the sync script *)

Module Main.
Section Script.
Context {Py : Python} (srv : server).

Definition PAGE_SIZE : nat := 500.

Definition batch_size : nat := 200.

Definition fetch_page (offset limit : nat) : M val :=
  request srv (FetchPage offset limit).

Definition project_points (points : list val) : M val :=
  match points with
  | [] => ret (VList [])
  | _ =>
      data <- request srv (Project points) ;;
      lift (py_get data "geometries" (VList []))
  end.

Definition ms_to_iso (ms : val) : result val :=
  if is_none ms then Ok (VStr "")
  else iso <-? utc_isoformat ms ;; Ok (VStr iso).

(** Lines 76-82: the label of a decoded reverse-geocode response. *)
Definition address_label (data : val) : result val :=
  address <-? py_get data "address" VNone ;;
  match py_or address (VDict []) with
  | VDict addr =>
      Ok (py_or
            (py_or
               (py_or (dict_get_default addr "LongLabel" VNone)
                  (dict_get_default addr "Address" VNone))
               (dict_get_default addr "Match_addr" VNone))
            (VStr ""))
  | _ => Raise AttributeError
  end.

(** The cache key [f"{lon:.6f},{lat:.6f}"]. *)
Definition cache_key (lon lat : val) : result string :=
  a <-? format_6f lon ;;
  b <-? format_6f lat ;;
  Ok (a +:+ "," +:+ b).

(** Returns the label and the cache as the call leaves it. *)
Definition reverse_geocode (lon lat : val) (cache : gmap string val)
  : M (val * gmap string val) :=
  if is_none lon || is_none lat then ret (VStr "", cache)
  else
    key <- lift (cache_key lon lat) ;;
    match cache !! key with
    | Some label => ret (label, cache)
    | None =>
        try_except
          (data <- request srv (ReverseGeocode lon lat) ;;
           label <- lift (address_label data) ;;
           ret (label, <[key := label]> cache))
          (fun _ => ret (VStr "", <[key := VStr ""]> cache))
    end.

(** [posts_csv] is what [csv.DictReader] yields for the file of the previous
    run, [None] when there is no such file.  A record whose OBJECTID cell is
    [None] is stored under the key [None], which no lookup by a string finds:
    it is left out. *)
Definition load_existing (posts_csv : option (list dict)) : gmap string dict :=
  match posts_csv with
  | None => ∅
  | Some rows =>
      foldl
        (fun cache row =>
           match dict_get_default row "OBJECTID" (VStr "") with
           | VStr objectid => <[objectid := row]> cache
           | _ => cache
           end)
        ∅ rows
  end.

(** Lines 107-115. *)
Fixpoint fetch_loop (fuel : nat) (offset : nat) (all_features : list val)
  : M (list val) :=
  match fuel with
  | O => out_of_fuel
  | S fuel' =>
      data <- fetch_page offset PAGE_SIZE ;;
      features <- lift (py_get data "features" (VList [])) ;;
      if negb (truthy features) then ret all_features
      else
        items <- lift (py_iter features) ;;
        n <- lift (py_len features) ;;
        if n <? PAGE_SIZE then ret (all_features ++ items)
        else fetch_loop fuel' (offset + n) (all_features ++ items)
  end.

(** Lines 118-121, one element of the comprehension. *)
Definition feature_point (f : val) : result val :=
  gx <-? py_get f "geometry" (VDict []) ;;
  x <-? py_get gx "x" VNone ;;
  gy <-? py_get f "geometry" (VDict []) ;;
  y <-? py_get gy "y" VNone ;;
  Ok (VDict [("x", x); ("y", y)]).

(** Lines 124-125, over the offsets [range(0, len(points), batch_size)]. *)
Fixpoint project_batches (starts : list nat) (points projected : list val)
  : M (list val) :=
  match starts with
  | [] => ret projected
  | i :: rest =>
      geometries <- project_points (py_slice points i (i + batch_size)) ;;
      items <- lift (py_iter geometries) ;;
      project_batches rest points (projected ++ items)
  end.

Definition HEADER : list val :=
  map VStr
    ["STATION_NO"; "STATUT"; "DATE_MAJ_ISO"; "STATIONNEMENT"; "OBJECTID";
     "X_32187"; "Y_32187"; "LON_WGS84"; "LAT_WGS84"; "RUE_REVERSE"].

Record enriched : Type := Enriched {
  attrs : val;
  geom : val;
  objectid : string;
  lon : val;
  lat : val;
  street_label : val;
}.

(** Lines 145-157: the merge with the previous run, or projection lookup
    and reverse geocoding. *)
Definition enrich (existing_rows : gmap string dict) (projected : list val)
    (idx : nat) (feat : val) (reverse_cache : gmap string val)
  : M (enriched * gmap string val) :=
  attrs <- lift (py_get feat "attributes" (VDict [])) ;;
  geometry <- lift (py_get feat "geometry" (VDict [])) ;;
  let geom := py_or geometry (VDict []) in
  oid <- lift (py_get attrs "OBJECTID" (VStr "")) ;;
  let objectid := py_str oid in
  let existing := default [] (existing_rows !! objectid) in
  if truthy (VDict existing) then
    let lon := py_or (dict_get_default existing "LON_WGS84" VNone) (VStr "") in
    let lat := py_or (dict_get_default existing "LAT_WGS84" VNone) (VStr "") in
    let street_label :=
      py_or (dict_get_default existing "RUE_REVERSE" VNone) (VStr "") in
    ret (Enriched attrs geom objectid lon lat street_label, reverse_cache)
  else
    let wgs84 :=
      if idx <? length projected then default (VDict []) (projected !! idx)
      else VDict [] in
    lon <- lift (py_get wgs84 "x" VNone) ;;
    lat <- lift (py_get wgs84 "y" VNone) ;;
    labelled <- reverse_geocode lon lat reverse_cache ;;
    ret (Enriched attrs geom objectid lon lat (fst labelled), snd labelled).

(** Lines 158-171: the record handed to [writer.writerow]. *)
Definition output_record (e : enriched) : result (list val) :=
  station_no <-? py_get (attrs e) "STATION_NO" (VStr "") ;;
  statut <-? py_get (attrs e) "STATUT" (VStr "") ;;
  date_maj <-? py_get (attrs e) "DATE_MAJ" VNone ;;
  date_maj_iso <-? ms_to_iso date_maj ;;
  stationnement <-? py_get (attrs e) "STATIONNEMENT" (VStr "") ;;
  x <-? py_get (geom e) "x" (VStr "") ;;
  y <-? py_get (geom e) "y" (VStr "") ;;
  Ok [station_no; statut; date_maj_iso; stationnement; VStr (objectid e); x; y;
      (if is_none (lon e) then VStr "" else lon e);
      (if is_none (lat e) then VStr "" else lat e);
      street_label e].

(** Lines 144-171, the loop over [enumerate(all_features)] from [idx] on. *)
Fixpoint write_features (existing_rows : gmap string dict)
    (projected : list val) (idx : nat) (features : list val)
    (reverse_cache : gmap string val) : M (gmap string val) :=
  match features with
  | [] => ret reverse_cache
  | feat :: rest =>
      e <- enrich existing_rows projected idx feat reverse_cache ;;
      record <- lift (output_record (fst e)) ;;
      writerow record ;;;
      write_features existing_rows projected (S idx) rest (snd e)
  end.

(** [fuel] bounds the number of pages the [while True] loop may fetch. *)
Definition main (fuel : nat) (posts_csv : option (list dict)) : M unit :=
  let existing_rows := load_existing posts_csv in
  all_features <- fetch_loop fuel 0 [] ;;
  points <- for_each (fun f => lift (feature_point f)) all_features ;;
  projected <-
    project_batches (py_range 0 (length points) batch_size) points [] ;;
  open_for_writing ;;;
  writerow HEADER ;;;
  _ <- write_features existing_rows projected 0 all_features ∅ ;;
  ret tt.

End Script.
End Main.

(** ** fill_missing_rues.py: the repair script *)

Module FillMissingRues.
Section Script.
Context {Py : Python} (srv : server).

Definition MAX_RETRIES : nat := 3.

(** 0.08 seconds *)
Definition SLEEP_SECONDS : Q := (8 # 100)%Q.

(** [0.5 * attempt] seconds *)
Definition backoff (attempt : nat) : Q :=
  ((1 # 2) * inject_Z (Z.of_nat attempt))%Q.

(** Lines 30-36: the label of a decoded reverse-geocode response. *)
Definition address_label (data : val) : result val :=
  address <-? py_get data "address" VNone ;;
  match py_or address (VDict []) with
  | VDict addr =>
      Ok (py_or
            (py_or
               (py_or (dict_get_default addr "LongLabel" VNone)
                  (dict_get_default addr "Address" VNone))
               (dict_get_default addr "Match_addr" VNone))
            (VStr ""))
  | _ => Raise AttributeError
  end.

(** Lines 26-43, the loop over the attempts that are left. *)
Fixpoint reverse_geocode_from (attempts : list nat) (lon lat : number)
  : M val :=
  match attempts with
  | [] => ret (VStr "")
  | attempt :: rest =>
      try_except
        (data <- request srv (ReverseGeocode (VNum lon) (VNum lat)) ;;
         lift (address_label data))
        (fun _ =>
           if attempt =? MAX_RETRIES then ret (VStr "")
           else sleep (backoff attempt) ;;; reverse_geocode_from rest lon lat)
  end.

Definition reverse_geocode (lon lat : number) : M val :=
  reverse_geocode_from (py_range 1 (MAX_RETRIES + 1) 1) lon lat.

(** [v in (None, "", "None")] *)
Definition is_blank (v : val) : bool :=
  match v with
  | VNone => true
  | VStr s => String.eqb s "" || String.eqb s "None"
  | _ => false
  end.

(** [float(v) if v not in (None, "", "None") else None] *)
Definition float_or_none (v : val) : result (option number) :=
  if is_blank v then Ok None else x <-? py_float v ;; Ok (Some x).

(** Lines 62-66: only [ValueError] is caught. *)
Definition parse_coordinates (lon lat : val)
  : result (option number * option number) :=
  match
    (lon_f <-? float_or_none lon ;;
     lat_f <-? float_or_none lat ;;
     Ok (lon_f, lat_f))
  with
  | Raise ValueError => Ok (None, None)
  | other => other
  end.

(** Lines 54-74: the loop body, returning the row as the body leaves it.
    The counters [updated] and [skipped] are only printed and are left
    out. *)
Definition fill_row (row : dict) : M dict :=
  rue <- lift (py_strip (dict_get_default row "RUE_REVERSE" (VStr ""))) ;;
  let lon := dict_get_default row "LON_WGS84" VNone in
  let lat := dict_get_default row "LAT_WGS84" VNone in
  if truthy (VStr rue) && negb (String.eqb (upper rue) "MISSING_RUE")
  then ret row
  else
    coords <- lift (parse_coordinates lon lat) ;;
    match coords with
    | (Some lon_f, Some lat_f) =>
        label <- reverse_geocode lon_f lat_f ;;
        let row' :=
          if truthy label then dict_set row "RUE_REVERSE" label else row in
        sleep SLEEP_SECONDS ;;;
        ret row'
    | _ => ret row
    end.

(** [csv.DictWriter._dict_to_list] with [extrasaction="raise"] and
    [restval=""]. *)
Definition dict_to_list (fieldnames : list string) (rowdict : dict)
  : result (list val) :=
  if forallb (fun k => existsb (String.eqb k) fieldnames) (dict_keys rowdict)
  then Ok (map (fun k => dict_get_default rowdict k (VStr "")) fieldnames)
  else Raise ValueError.

(** Lines 76-79.  [header] is [rows[0].keys()], a live view: it shows the
    keys of the first row as the loop left them. *)
Definition write_back (rows : list dict) : M unit :=
  let header := dict_keys (default [] (head rows)) in
  open_for_writing ;;;
  writerow (map VStr header) ;;;
  _ <- for_each
         (fun rowdict =>
            record <- lift (dict_to_list header rowdict) ;; writerow record)
         rows ;;
  ret tt.

(** [posts_csv] is what [csv.DictReader] yields for the input file, [None]
    when the file does not exist. *)
Definition main (posts_csv : option (list dict)) : M unit :=
  match posts_csv with
  | None => raise FileNotFoundError
  | Some [] => raise IndexError
  | Some rows =>
      rows' <- for_each fill_row rows ;;
      write_back rows'
  end.

End Script.
End FillMissingRues.

(** ** Notions the properties are stated with *)

Section Notions.
Context {Py : Python} (srv : server).

(** *** Label selection, as the specification words it *)

(** The string under [k], when the key is present and its string is not
    empty. *)
Definition present_label (addr : dict) (k : string) : option string :=
  match dict_get addr k with
  | Some (VStr s) => if String.eqb s "" then None else Some s
  | _ => None
  end.

(** LongLabel if present and non-empty, else Address, else Match_addr, else
    the empty string. *)
Definition preferred_label (addr : dict) : string :=
  match present_label addr "LongLabel" with
  | Some s => s
  | None =>
      match present_label addr "Address" with
      | Some s => s
      | None =>
          match present_label addr "Match_addr" with
          | Some s => s
          | None => ""
          end
      end
  end.

(** The three label fields hold strings where they are present. *)
Definition labels_are_strings (addr : dict) : bool :=
  forallb
    (fun k =>
       match dict_get addr k with
       | Some (VStr _) | None => true
       | Some _ => false
       end)
    ["LongLabel"; "Address"; "Match_addr"].

(** *** Requests and the cache of the sync run *)

Definition sent (w : world) (ev : event) : world :=
  World (trace w ++ [ev]) (written w).

(** The outcome of the [try] block of one attempt, as a function of the
    history: the request's answer, then the label selection. *)
Definition attempt (history : list event) (lon lat : val) : result val :=
  data <-? srv history (ReverseGeocode lon lat) ;; Main.address_label data.

Definition label_or_empty (r : result val) : val :=
  match r with
  | Ok label => label
  | Raise _ => VStr ""
  end.


(** One call of [reverse_geocode] somewhere in the run takes the cache from
    [c] to [c']. *)
Definition cache_step (c c' : gmap string val) : Prop :=
  exists lon lat w label w',
    Main.reverse_geocode srv lon lat c w = (Ret (label, c'), w').

(** The cache of a run changes through calls of [reverse_geocode] only. *)
Definition cache_evolves : relation (gmap string val) := rtc cache_step.

(** *** Pagination *)

(** The features of one page as the loop reads the answer to a request: a
    missing or falsy [features] is an empty page. *)
Definition page_of (response : result val) : result (list val) :=
  data <-? response ;;
  features <-? py_get data "features" (VList []) ;;
  if truthy features then py_iter features else Ok [].

(** The service answers the requests of the loop, from [offset] on, with
    [pages], one after the other. *)
Fixpoint served (history : list event) (offset : nat)
    (pages : list (list val)) : Prop :=
  match pages with
  | [] => True
  | page :: rest =>
      page_of (srv history (FetchPage offset Main.PAGE_SIZE)) = Ok page /\
      served (history ++ [FetchPage offset Main.PAGE_SIZE])
        (offset + length page) rest
  end.

(** The requests that fetch [pages]: each offset is the previous one plus
    the number of features received. *)
Fixpoint page_requests (offset : nat) (pages : list (list val)) : list event :=
  match pages with
  | [] => []
  | page :: rest =>
      FetchPage offset Main.PAGE_SIZE
        :: page_requests (offset + length page) rest
  end.

(** Every page but the last is full, and the last one is empty or short. *)
Fixpoint stops_at_last (pages : list (list val)) : Prop :=
  match pages with
  | [] => False
  | [last] => length last < Main.PAGE_SIZE
  | page :: rest => Main.PAGE_SIZE <= length page /\ stops_at_last rest
  end.

(** *** Projection *)

(** The projection endpoint keeps its contract: whenever it is asked, it
    answers a batch with the projections of its points, in order. *)
Definition projects_pointwise (proj : val -> val) : Prop :=
  forall (history : list event) (points : list val),
    points <> [] ->
    exists d,
      srv history (Project points) = Ok (VDict d) /\
      dict_get d "geometries" = Some (VList (map proj points)).

(** The batches the loop of lines 124-125 submits. *)
Definition batches (points : list val) : list (list val) :=
  map (fun i => py_slice points i (i + Main.batch_size))
    (py_range 0 (length points) Main.batch_size).

(** *** Rows of posts.csv *)

(** A cell as [csv.DictReader] yields it: a string, or [None] where the
    record is shorter than the header. *)
Definition csv_cell (v : val) : bool :=
  match v with
  | VStr _ | VNone => true
  | _ => false
  end.

Definition csv_row (row : dict) : bool := forallb (fun kv => csv_cell (snd kv)) row.

(** The text of the cell under [k]; a missing cell reads as the empty text,
    which is also how [csv.writer] writes [None]. *)
Definition cell_text (row : dict) (k : string) : string :=
  match dict_get row k with
  | Some (VStr s) => s
  | _ => ""
  end.

(** The OBJECTID of a feature as the loop computes it. *)
Definition feature_objectid (feat : val) : result string :=
  attrs <-? py_get feat "attributes" (VDict []) ;;
  oid <-? py_get attrs "OBJECTID" (VStr "") ;;
  Ok (py_str oid).

(** The key under which [load_existing] files a record. *)
Definition row_key (row : dict) : val :=
  dict_get_default row "OBJECTID" (VStr "").

Definition load_row (cache : gmap string dict) (row : dict) : gmap string dict :=
  match row_key row with
  | VStr objectid => <[objectid := row]> cache
  | _ => cache
  end.

Fixpoint distinct (keys : list string) : bool :=
  match keys with
  | [] => true
  | k :: rest => negb (existsb (String.eqb k) rest) && distinct rest
  end.

Fixpoint same_keys (a b : list string) : bool :=
  match a, b with
  | [], [] => true
  | x :: a', y :: b' => String.eqb x y && same_keys a' b'
  | _, _ => false
  end.

(** A record of the file as [csv.DictReader] yields it under [header]: the
    header's columns in order, text or [None] in every cell, and a text in
    the RUE_REVERSE column. *)
Definition record_of (header : list string) (row : dict) : bool :=
  same_keys (dict_keys row) header
  && csv_row row
  && match dict_get row "RUE_REVERSE" with
     | Some (VStr _) => true
     | _ => false
     end.

(** The rows of a file whose header has distinct columns, RUE_REVERSE among
    them, and at least one record. *)
Definition well_formed (rows : list dict) : bool :=
  match rows with
  | [] => false
  | first :: _ =>
      distinct (dict_keys first) && forallb (record_of (dict_keys first)) rows
  end.

(** *** The repair *)

(** The outcome of the [try] block of one attempt of the repair script. *)
Definition repair_attempt (history : list event) (lon lat : number)
  : result val :=
  data <-? srv history (ReverseGeocode (VNum lon) (VNum lat)) ;;
  FillMissingRues.address_label data.

(** The test of line 59 on the stripped label: blank, or the sentinel in any
    letter case. *)
Definition label_missing (rue : string) : bool :=
  String.eqb rue "" || String.eqb (upper rue) "MISSING_RUE".

(** The cell holds a text that [float] reads. *)
Definition has_coordinate (v : val) : bool :=
  match v with
  | VStr s =>
      match float_of_string s with
      | Some _ => true
      | None => false
      end
  | _ => false
  end.

(** The rows the repair must not touch: a label that is present and is not
    the sentinel, or coordinates that are missing or do not parse. *)
Definition left_alone (row : dict) : bool :=
  negb (label_missing (strip (cell_text row "RUE_REVERSE")))
  || negb (has_coordinate (dict_get_default row "LON_WGS84" VNone)
           && has_coordinate (dict_get_default row "LAT_WGS84" VNone)).

End Notions.

(** ** Notions for whole runs *)

Section RunNotions.
Context {Py : Python}.

Definition is_fetch (ev : event) : bool :=
  match ev with
  | FetchPage _ _ => true
  | _ => false
  end.

Definition is_project (ev : event) : bool :=
  match ev with
  | Project _ => true
  | _ => false
  end.

Definition is_reverse (ev : event) : bool :=
  match ev with
  | ReverseGeocode _ _ => true
  | _ => false
  end.

Definition is_sleep (ev : event) : bool :=
  match ev with
  | Sleep _ => true
  | _ => false
  end.

(** The number of reverse-geocode requests in a trace. *)
Definition reverse_requests (t : list event) : nat :=
  length (List.filter is_reverse t).

(** The world after a computation extends the trace of the world before by
    events that all satisfy [P], whatever the outcome. *)
Definition sends (P : event -> bool) : relation world :=
  fun w w' => exists evs, trace w' = trace w ++ evs /\ forallb P evs = true.

(** The output file is as it was. *)
Definition keeps_file : relation world :=
  fun w w' => written w' = written w.

(** [R] relates the world before [m] to the world after it, whether [m]
    returns, raises or runs out of fuel. *)
Definition effect {A : Type} (R : relation world) (m : M A) : Prop :=
  forall w, R w (snd (m w)).

(** Lines 103-125 of the sync script: everything [main] does before it
    opens the output file.  Returns the features and their projections. *)
Definition sync_inputs (srv : server) (fuel : nat) : M (list val * list val) :=
  all_features <- Main.fetch_loop srv fuel 0 [] ;;
  points <- for_each (fun f => lift (Main.feature_point f)) all_features ;;
  projected <-
    Main.project_batches srv
      (py_range 0 (length points) Main.batch_size) points [] ;;
  ret (all_features, projected).

(** The service answers every page request with a full page. *)
Definition always_full (srv : server) : Prop :=
  forall (history : list event) (offset : nat),
    exists page,
      page_of (srv history (FetchPage offset Main.PAGE_SIZE)) = Ok page /\
      Main.PAGE_SIZE <= length page.

(** The events of a run come in phases: first events that satisfy the first
    test, then events that satisfy the second, and so on. *)
Fixpoint phases (tests : list (event -> bool)) (evs : list event) : Prop :=
  match tests with
  | [] => evs = []
  | P :: rest =>
      exists now later,
        evs = now ++ later /\ forallb P now = true /\ phases rest later
  end.

Definition sends_in_phases (tests : list (event -> bool)) : relation world :=
  fun w w' => exists evs, trace w' = trace w ++ evs /\ phases tests evs.

(** The record of a feature: as many cells as the header, the feature's
    OBJECTID in the fifth. *)
Definition record_for (feat : val) (record : list val) : Prop :=
  length record = length Main.HEADER /\
  exists oid, feature_objectid feat = Ok oid /\ record !! 4 = Some (VStr oid).

(** At most [n] reverse-geocode requests are added. *)
Definition within (n : nat) : relation world :=
  fun w w' => reverse_requests (trace w') <= reverse_requests (trace w) + n.

(** How a row may differ from the row it was read as. *)
Definition only_label_filled (row row' : dict) : Prop :=
  (forall k, k <> "RUE_REVERSE" -> dict_get row' k = dict_get row k) /\
  (dict_get row' "RUE_REVERSE" = dict_get row "RUE_REVERSE" \/
   exists label,
     truthy label = true /\ dict_get row' "RUE_REVERSE" = Some label).

(** What the projection stage appends for one batch: the geometries of the
    answer, as [extend] iterates them. *)
Definition answer_of (srv : server) (history : list event) (batch : list val)
  : result (list val) :=
  data <-? srv history (Project batch) ;;
  geometries <-? py_get data "geometries" (VList []) ;;
  py_iter geometries.

(** The service answers the batches, one after the other, with [answers]. *)
Fixpoint answered (srv : server) (history : list event)
    (todo : list (list val)) (answers : list (list val)) : Prop :=
  match todo, answers with
  | [], [] => True
  | batch :: todo', answer :: answers' =>
      answer_of srv history batch = Ok answer /\
      answered srv (history ++ [Project batch]) todo' answers'
  | _, _ => False
  end.

(** The feature is a dict whose geometry is absent or a dict: what the
    comprehension of lines 118-121 can read a point from. *)
Definition has_readable_geometry (feat : val) : bool :=
  match feat with
  | VDict f =>
      match dict_get f "geometry" with
      | None | Some (VDict _) => true
      | Some _ => false
      end
  | _ => false
  end.

(** The record [load_existing] files under [oid], read off the file: the
    last one whose OBJECTID cell is the text [oid]. *)
Definition has_key (oid : string) (row : dict) : bool :=
  match row_key row with
  | VStr k => String.eqb k oid
  | _ => false
  end.

End RunNotions.

(** ** A sample world, for running the scripts on concrete inputs

    Numbers are whole numbers printed in decimal; [float] reads an optional
    minus sign and digits. *)

Module Sample.

Definition digit (c : ascii) : option Z :=
  let n := nat_of_ascii c in
  if (48 <=? n) && (n <=? 57) then Some (Z.of_nat (n - 48)) else None.

Fixpoint parse_digits (acc : Z) (s : string) : option Z :=
  match s with
  | EmptyString => Some acc
  | String c rest =>
      match digit c with
      | Some d => parse_digits (10 * acc + d) rest
      | None => None
      end
  end.

Definition parse_int (s : string) : option Z :=
  match s with
  | EmptyString => None
  | String "-" EmptyString => None
  | String "-" rest => Z.opp <$> parse_digits 0 rest
  | _ => parse_digits 0 s
  end.

Definition py : Python := {|
  number := Z;
  number_is_zero := Z.eqb 0;
  number_str := pretty;
  number_format_6f := fun z => pretty z +:+ ".000000";
  number_of_bool := fun b => if b then 1%Z else 0%Z;
  float_of_string := parse_int;
  container_str := fun _ => "[...]";
  utc_isoformat := fun _ => Ok "1970-01-01T00:00:00";
|}.

#[local] Existing Instance py.

Definition num (z : Z) : val := @VNum (@number py) z.

Definition point (x y : Z) : val := VDict [("x", num x); ("y", num y)].

Definition feature (oid x y : Z) : val :=
  VDict [("attributes", VDict [("STATION_NO", VStr "S"); ("OBJECTID", num oid)]);
         ("geometry", point x y)].

Definition address : dict :=
  [("Address", VStr "12 rue Test"); ("Match_addr", VStr "Test")].

(** A stand-in for the projection: the two coordinates change places. *)
Definition to_wgs84 (p : val) : val :=
  match p with
  | VDict d =>
      VDict [("x", dict_get_default d "y" VNone);
             ("y", dict_get_default d "x" VNone)]
  | other => other
  end.

(** A service that pages through [features], projects with [to_wgs84] and
    labels every location with [address]. *)
Definition online (features : list val) : server :=
  fun _ ev =>
    match ev with
    | FetchPage offset limit =>
        Ok (VDict [("features", VList (take limit (drop offset features)))])
    | Project points => Ok (VDict [("geometries", VList (map to_wgs84 points))])
    | ReverseGeocode _ _ => Ok (VDict [("address", VDict address)])
    | Sleep _ => Raise (OtherError "not a request")
    end.

(** Every request fails. *)
Definition offline : server := fun _ _ => Raise URLError.

Definition fresh : world := World [] None.

(** A record of posts.csv as a previous sync run left it. *)
Definition previous_row : dict :=
  [("STATION_NO", VStr "S"); ("STATUT", VStr ""); ("DATE_MAJ_ISO", VStr "");
   ("STATIONNEMENT", VStr ""); ("OBJECTID", VStr "42");
   ("X_32187", VStr "100"); ("Y_32187", VStr "200");
   ("LON_WGS84", VStr "-73.5"); ("LAT_WGS84", VStr "45.5");
   ("RUE_REVERSE", VStr "Rue Test")].

(** Three records of posts.csv: labelled, marked with the sentinel, and
    without coordinates. *)
Definition labelled_row : dict :=
  [("OBJECTID", VStr "1"); ("LON_WGS84", VStr "-73"); ("LAT_WGS84", VStr "45");
   ("RUE_REVERSE", VStr "Rue A")].

Definition sentinel_row : dict :=
  [("OBJECTID", VStr "2"); ("LON_WGS84", VStr "-73"); ("LAT_WGS84", VStr "45");
   ("RUE_REVERSE", VStr "MISSING_RUE")].

Definition blank_row : dict :=
  [("OBJECTID", VStr "3"); ("LON_WGS84", VStr ""); ("LAT_WGS84", VStr "");
   ("RUE_REVERSE", VStr "")].

(** 501 features: one full page and a page of one. *)
Definition many_features : list val :=
  replicate 500 (feature 1 0 0) ++ [feature 2 0 0].

End Sample.

(** ** More scenarios on the sample world *)

Module Scenarios.
Import Sample.
#[local] Existing Instance py.

(** A service whose every page is full. *)
Definition endless : server :=
  fun _ ev =>
    match ev with
    | FetchPage _ _ =>
        Ok (VDict [("features", VList (replicate 500 (feature 1 0 0)))])
    | _ => Raise URLError
    end.

(** Like [online], but the projection answers with a null geometry. *)
Definition null_projection (features : list val) : server :=
  fun history ev =>
    match ev with
    | Project _ => Ok (VDict [("geometries", VList [VNone])])
    | _ => online features history ev
    end.

Definition null_geometry_feature : val :=
  VDict [("attributes", VDict [("OBJECTID", num 5)]); ("geometry", VNone)].


(** A record of the previous file whose label was never resolved. *)
Definition unlabelled_row : dict :=
  [("OBJECTID", VStr "42"); ("LON_WGS84", VStr "-73.5");
   ("LAT_WGS84", VStr "45.5"); ("RUE_REVERSE", VStr "")].

(** A record that ends before the RUE_REVERSE column. *)
Definition short_record : dict :=
  [("OBJECTID", VStr "9"); ("LON_WGS84", VStr "-73"); ("LAT_WGS84", VNone);
   ("RUE_REVERSE", VNone)].

End Scenarios.

(** ** Coordinates with seven decimals *)

Module Decimals.

(** [n] counts tenths of a millionth: it stands for the number n / 10^7.
    A number half-way between two numbers with six decimals is left out:
    the side the six-decimal text of a float takes there depends on its
    binary digits. *)
Definition off_tie (n : Z) : bool := negb (n mod 10 =? 5)%Z.

Definition decimal : Type := {n : Z | off_tie n = true}.

Definition units (x : decimal) : Z := proj1_sig x.

(** [round(x, 6)], in millionths. *)
Definition round_6 (x : decimal) : Z := ((units x + 5) / 10)%Z.

(** The last [k] decimal digits of [n]. *)
Fixpoint digits (k : nat) (n : Z) : string :=
  match k with
  | O => ""
  | S k' =>
      digits k' (n / 10)
        +:+ String (ascii_of_nat (48 + Z.to_nat (n mod 10))) ""
  end.

(** [format(x, ".6f")]: the sign of [x], then the rounded magnitude; a
    negative number that rounds to zero keeps its sign. *)
Definition six_decimals (x : decimal) : string :=
  let m := Z.abs (round_6 x) in
  (if (units x <? 0)%Z then "-" else "")
    +:+ pretty (m / 1000000)%Z +:+ "." +:+ digits 6 (m mod 1000000).

(** The number written in full, with its seven decimals: a stand-in for
    [str], which the cache of the geocoder does not use. *)
Definition seven_decimals (x : decimal) : string :=
  let m := Z.abs (units x) in
  (if (units x <? 0)%Z then "-" else "")
    +:+ pretty (m / 10000000)%Z +:+ "." +:+ digits 7 (m mod 10000000).

(** The whole number [z]; [float] reads the texts of whole numbers here, as
    in [Sample]. *)
Definition whole (z : Z) : option decimal :=
  match off_tie (10000000 * z) as b
        return off_tie (10000000 * z) = b -> option decimal with
  | true => fun H => Some (exist _ (10000000 * z)%Z H)
  | false => fun _ => None
  end eq_refl.

Definition py : Python := {|
  number := decimal;
  number_is_zero := fun x => (units x =? 0)%Z;
  number_str := seven_decimals;
  number_format_6f := six_decimals;
  number_of_bool :=
    fun b =>
      if b then exist _ 10000000%Z eq_refl else exist _ 0%Z eq_refl;
  float_of_string := fun s => Sample.parse_int s ≫= whole;
  container_str := fun _ => "[...]";
  utc_isoformat := fun _ => Ok "1970-01-01T00:00:00";
|}.

#[local] Existing Instance py.

Definition num (n : Z) (H : off_tie n = true) : val := VNum (exist _ n H).

(** -0.0000001 and 0.0000001, on either side of zero. *)
Definition minus_tenth : decimal := exist _ (-1)%Z eq_refl.
Definition plus_tenth : decimal := exist _ 1%Z eq_refl.
Definition just_west : val := VNum minus_tenth.
Definition just_east : val := VNum plus_tenth.

(** 0.0000009, 0.0000011 and 0.000002. *)
Definition nine_tenths : val := num 9 eq_refl.
Definition eleven_tenths : val := num 11 eq_refl.
Definition two_millionths : val := num 20 eq_refl.

(** 45.5 *)
Definition north : val := num 455000000 eq_refl.

Definition fresh : world := World [] None.

Definition address : val :=
  VDict [("address", VDict [("Address", VStr "12 rue Test")])].

(** The geocoder labels every location with [address]. *)
Definition labelling : server :=
  fun _ ev =>
    match ev with
    | ReverseGeocode _ _ => Ok address
    | _ => Raise URLError
    end.

(** The geocoder answers the first request of the run and fails after it. *)
Definition answers_once : server :=
  fun history ev =>
    match history, ev with
    | [], ReverseGeocode _ _ => Ok address
    | _, _ => Raise URLError
    end.

End Decimals.

(** * Properties *)

(** ** The monad *)

Section MonadLaws.
Context {Py : Python}.

Lemma bind_lift_ok {A B : Type} (a : A) (k : A -> M B) (w : world) :
  bind (lift (Ok a)) k w = k a w.
Proof. reflexivity. Qed.

Lemma bind_lift_raise {A B : Type} (e : exn) (k : A -> M B) (w : world) :
  bind (lift (Raise e)) k w = (Exc e, w).
Proof. reflexivity. Qed.

Lemma bind_ret {A B : Type} (a : A) (k : A -> M B) (w : world) :
  bind (ret a) k w = k a w.
Proof. reflexivity. Qed.

Lemma bind_ret_inv {A B : Type} (m : M A) (k : A -> M B) (w w' : world) (b : B) :
  bind m k w = (Ret b, w') ->
  exists a w1, m w = (Ret a, w1) /\ k a w1 = (Ret b, w').
Proof.
  unfold bind. destruct (m w) as [[a| |] w1]; try discriminate. eauto.
Qed.

Lemma lift_ret_inv {A : Type} (r : result A) (w w' : world) (a : A) :
  lift r w = (Ret a, w') -> r = Ok a /\ w' = w.
Proof.
  destruct r; cbn; intros H; inversion H; auto.
Qed.

End MonadLaws.

(** ** Label selection *)

Section Labels.
Context {Py : Python}.

Lemma truthy_str_empty : truthy (VStr "") = false.
Proof. reflexivity. Qed.

Lemma truthy_str_nonempty (s : string) : s <> "" -> truthy (VStr s) = true.
Proof. intros H. cbn. apply String.eqb_neq in H. now rewrite H. Qed.

Ltac split_string s :=
  let E := fresh "E" in
  destruct (String.eqb_spec s "") as [->|E];
  [ | pose proof (truthy_str_nonempty s E); apply String.eqb_neq in E ].

Lemma or_chain_preferred (addr : dict) :
  labels_are_strings addr = true ->
  py_or
    (py_or
       (py_or (dict_get_default addr "LongLabel" VNone)
          (dict_get_default addr "Address" VNone))
       (dict_get_default addr "Match_addr" VNone))
    (VStr "")
  = VStr (preferred_label addr).
Proof.
  unfold labels_are_strings, preferred_label, present_label, dict_get_default.
  cbn [forallb]. intros H.
  repeat (apply andb_prop in H; destruct H as [? H]).
  destruct (dict_get addr "LongLabel") as [[| | |l| |]|]; try discriminate;
  destruct (dict_get addr "Address") as [[| | |a| |]|]; try discriminate;
  destruct (dict_get addr "Match_addr") as [[| | |m| |]|]; try discriminate;
  try split_string l; try split_string a; try split_string m;
  unfold py_or;
  repeat match goal with
  | E : truthy _ = true |- _ => rewrite E
  | E : String.eqb _ _ = false |- _ => rewrite E
  | _ => progress cbn [truthy negb String.eqb]
  end; reflexivity.
Qed.

Lemma sync_address_label (d addr : dict) :
  dict_get d "address" = Some (VDict addr) ->
  labels_are_strings addr = true ->
  Main.address_label (VDict d) = Ok (VStr (preferred_label addr)).
Proof.
  intros Hd Hs. unfold Main.address_label. cbn [py_get and_then].
  replace (dict_get_default d "address" VNone) with (VDict addr)
    by (unfold dict_get_default; now rewrite Hd).
  destruct addr as [|kv addr'].
  - reflexivity.
  - unfold py_or at 1. cbn [truthy]. now rewrite or_chain_preferred.
Qed.

Lemma repair_address_label (d addr : dict) :
  dict_get d "address" = Some (VDict addr) ->
  labels_are_strings addr = true ->
  FillMissingRues.address_label (VDict d) = Ok (VStr (preferred_label addr)).
Proof.
  intros Hd Hs. unfold FillMissingRues.address_label. cbn [py_get and_then].
  replace (dict_get_default d "address" VNone) with (VDict addr)
    by (unfold dict_get_default; now rewrite Hd).
  destruct addr as [|kv addr'].
  - reflexivity.
  - unfold py_or at 1. cbn [truthy]. now rewrite or_chain_preferred.
Qed.

End Labels.

(** ** The reverse geocoder of the sync script *)

Section SyncGeocoder.
Context {Py : Python} (srv : server).

Lemma cache_key_not_none (lon lat : val) (key : string) :
  Main.cache_key lon lat = Ok key -> is_none lon = false /\ is_none lat = false.
Proof.
  unfold Main.cache_key. destruct lon, lat; cbn; try discriminate; auto;
  repeat match goal with b : bool |- _ => destruct b end; cbn;
  try discriminate; auto.
Qed.

Lemma sync_reverse_geocode_none (lon lat : val) (cache : gmap string val) (w : world) :
  is_none lon || is_none lat = true ->
  Main.reverse_geocode srv lon lat cache w = (Ret (VStr "", cache), w).
Proof. intros H. unfold Main.reverse_geocode. now rewrite H. Qed.

Lemma sync_reverse_geocode_hit (lon lat : val) (key : string) (label : val)
    (cache : gmap string val) (w : world) :
  Main.cache_key lon lat = Ok key ->
  cache !! key = Some label ->
  Main.reverse_geocode srv lon lat cache w = (Ret (label, cache), w).
Proof.
  intros Hk Hc. unfold Main.reverse_geocode.
  destruct (cache_key_not_none _ _ _ Hk) as [-> ->]. cbn [orb].
  unfold bind, lift. rewrite Hk. cbn [ret]. now rewrite Hc.
Qed.

Lemma sync_reverse_geocode_miss (lon lat : val) (key : string)
    (cache : gmap string val) (w : world) :
  Main.cache_key lon lat = Ok key ->
  cache !! key = None ->
  Main.reverse_geocode srv lon lat cache w =
    (let label := label_or_empty (attempt srv (trace w) lon lat) in
     (Ret (label, <[key := label]> cache), sent w (ReverseGeocode lon lat))).
Proof.
  intros Hk Hc. unfold Main.reverse_geocode.
  destruct (cache_key_not_none _ _ _ Hk) as [-> ->]. cbn [orb].
  unfold bind at 1. unfold lift at 1. rewrite Hk. cbn [ret]. rewrite Hc.
  unfold try_except, bind, request, attempt, sent.
  destruct (srv (trace w) (ReverseGeocode lon lat)) as [data|e]; cbn.
  - destruct (Main.address_label data) as [label|e]; reflexivity.
  - reflexivity.
Qed.

Lemma sync_reverse_geocode_bad_key (lon lat : val) (e : exn)
    (cache : gmap string val) (w : world) :
  is_none lon || is_none lat = false ->
  Main.cache_key lon lat = Raise e ->
  Main.reverse_geocode srv lon lat cache w = (Exc e, w).
Proof.
  intros Hn Hk. unfold Main.reverse_geocode. rewrite Hn.
  unfold bind, lift. now rewrite Hk.
Qed.

Lemma sync_reverse_geocode_cases (lon lat : val) (cache : gmap string val)
    (w : world) (label : val) (cache' : gmap string val) (w' : world) :
  Main.reverse_geocode srv lon lat cache w = (Ret (label, cache'), w') ->
  (cache' = cache /\ w' = w) \/
  (exists key,
     Main.cache_key lon lat = Ok key /\ cache !! key = None /\
     label = label_or_empty (attempt srv (trace w) lon lat) /\
     cache' = <[key := label]> cache /\
     w' = sent w (ReverseGeocode lon lat)).
Proof.
  intros Hrun.
  destruct (is_none lon || is_none lat) eqn:Hn.
  - rewrite sync_reverse_geocode_none in Hrun by assumption.
    left. now inversion Hrun.
  - destruct (Main.cache_key lon lat) as [key|e] eqn:Hk.
    + destruct (cache !! key) as [l|] eqn:Hc.
      * rewrite (sync_reverse_geocode_hit _ _ _ _ _ _ Hk Hc) in Hrun.
        left. now inversion Hrun.
      * rewrite (sync_reverse_geocode_miss _ _ _ _ _ Hk Hc) in Hrun.
        right. exists key. cbv zeta in Hrun. now inversion Hrun.
    + rewrite (sync_reverse_geocode_bad_key _ _ _ _ _ Hn Hk) in Hrun.
      discriminate.
Qed.

Lemma cache_step_keeps (c c' : gmap string val) (k : string) (l : val) :
  cache_step srv c c' -> c !! k = Some l -> c' !! k = Some l.
Proof.
  intros (lon & lat & w & label & w' & Hrun) Hk.
  destruct (sync_reverse_geocode_cases _ _ _ _ _ _ _ Hrun)
    as [[-> _]|(key & _ & Hnone & _ & -> & _)]; [assumption|].
  rewrite lookup_insert_ne; [assumption|]. intros ->. congruence.
Qed.

Lemma cache_evolves_keeps (c c' : gmap string val) (k : string) (l : val) :
  cache_evolves srv c c' -> c !! k = Some l -> c' !! k = Some l.
Proof.
  induction 1 as [|c c1 c2 Hstep _ IH]; [auto|].
  intros Hk. apply IH. eapply cache_step_keeps; eauto.
Qed.

Lemma sync_reverse_geocode_records (lon lat : val) (key : string)
    (cache : gmap string val) (w : world) (label : val)
    (cache' : gmap string val) (w' : world) :
  Main.cache_key lon lat = Ok key ->
  Main.reverse_geocode srv lon lat cache w = (Ret (label, cache'), w') ->
  cache' !! key = Some label.
Proof.
  intros Hk Hrun. destruct (cache !! key) as [l|] eqn:Hc.
  - rewrite (sync_reverse_geocode_hit _ _ _ _ _ _ Hk Hc) in Hrun.
    inversion Hrun; subst. assumption.
  - rewrite (sync_reverse_geocode_miss _ _ _ _ _ Hk Hc) in Hrun.
    cbv zeta in Hrun. inversion Hrun; subst. apply lookup_insert_eq.
Qed.

(** C5.  For a reverse-geocode response whose address object holds strings
    under any subset of LongLabel, Address and Match_addr, the label is
    LongLabel if present and non-empty, else Address, else Match_addr, else
    the empty string: in the label selection of both scripts, and in what
    [reverse_geocode] returns in both scripts when the request is answered
    with that response. *)
Theorem label_selection (d addr : dict) :
  dict_get d "address" = Some (VDict addr) ->
  labels_are_strings addr = true ->
  Main.address_label (VDict d) = Ok (VStr (preferred_label addr)) /\
  FillMissingRues.address_label (VDict d) = Ok (VStr (preferred_label addr)) /\
  (forall (lon lat : val) (key : string) (cache : gmap string val) (w : world),
     srv (trace w) (ReverseGeocode lon lat) = Ok (VDict d) ->
     Main.cache_key lon lat = Ok key ->
     cache !! key = None ->
     fst (Main.reverse_geocode srv lon lat cache w)
       = Ret (VStr (preferred_label addr),
              <[key := VStr (preferred_label addr)]> cache)) /\
  (forall (lon lat : number) (w : world),
     srv (trace w) (ReverseGeocode (VNum lon) (VNum lat)) = Ok (VDict d) ->
     fst (FillMissingRues.reverse_geocode srv lon lat w)
       = Ret (VStr (preferred_label addr))).
Proof.
  intros Hd Hs. split; [|split; [|split]].
  - now apply sync_address_label.
  - now apply repair_address_label.
  - intros lon lat key cache w Hsrv Hk Hc.
    rewrite (sync_reverse_geocode_miss _ _ _ _ _ Hk Hc). cbv zeta.
    unfold attempt. rewrite Hsrv. cbn [and_then].
    now rewrite (sync_address_label _ _ Hd Hs).
  - intros lon lat w Hsrv.
    unfold FillMissingRues.reverse_geocode. cbn.
    unfold try_except, bind, request. rewrite Hsrv.
    unfold lift. now rewrite (repair_address_label _ _ Hd Hs).
Qed.


(** C8 (as amended).  Within a run, a call of [reverse_geocode] that returns
    a label leaves that label in the cache under the key made of the
    six-decimal texts of its coordinates; from then on, whatever other calls
    the run makes, a call with coordinates that have the same six-decimal
    texts returns the same label and leaves the world and the cache as they
    are: it sends no request.  When the first call found no entry, its label
    is what its single attempt gave, the empty string when that attempt
    failed, and that is what the later calls are served. *)
Theorem sync_cache_serves_repeat (lon1 lat1 lon2 lat2 : val) (a b : string)
    (c0 : gmap string val) (w0 : world) (label1 : val)
    (c1 : gmap string val) (w1 : world) :
  format_6f lon1 = Ok a -> format_6f lon2 = Ok a ->
  format_6f lat1 = Ok b -> format_6f lat2 = Ok b ->
  Main.reverse_geocode srv lon1 lat1 c0 w0 = (Ret (label1, c1), w1) ->
  c1 !! (a +:+ "," +:+ b) = Some label1 /\
  (forall (c2 : gmap string val) (w2 : world),
     cache_evolves srv c1 c2 ->
     Main.reverse_geocode srv lon2 lat2 c2 w2 = (Ret (label1, c2), w2)) /\
  (c0 !! (a +:+ "," +:+ b) = None ->
   label1 = label_or_empty (attempt srv (trace w0) lon1 lat1) /\
   c1 = <[a +:+ "," +:+ b := label1]> c0 /\
   w1 = sent w0 (ReverseGeocode lon1 lat1) /\
   forall e, attempt srv (trace w0) lon1 lat1 = Raise e -> label1 = VStr "").
Proof.
  intros Ha1 Ha2 Hb1 Hb2 Hrun.
  assert (Hk1 : Main.cache_key lon1 lat1 = Ok (a +:+ "," +:+ b))
    by (unfold Main.cache_key; now rewrite Ha1, Hb1).
  assert (Hk2 : Main.cache_key lon2 lat2 = Ok (a +:+ "," +:+ b))
    by (unfold Main.cache_key; now rewrite Ha2, Hb2).
  pose proof (sync_reverse_geocode_records _ _ _ _ _ _ _ _ Hk1 Hrun)
    as Hstored.
  split; [exact Hstored|]. split.
  - intros c2 w2 Hev.
    apply (sync_reverse_geocode_hit _ _ _ _ _ _ Hk2).
    exact (cache_evolves_keeps _ _ _ _ Hev Hstored).
  - intros Hc.
    rewrite (sync_reverse_geocode_miss _ _ _ _ _ Hk1 Hc) in Hrun.
    cbv zeta in Hrun. inversion Hrun; subst.
    repeat split. intros e He. now rewrite He.
Qed.

Lemma enrich_cache_evolves (existing_rows : gmap string dict)
    (projected : list val) (idx : nat) (feat : val)
    (cache cache' : gmap string val) (w w' : world) (e : Main.enriched) :
  Main.enrich srv existing_rows projected idx feat cache w = (Ret (e, cache'), w') ->
  cache_evolves srv cache cache'.
Proof.
  unfold Main.enrich. intros H.
  apply bind_ret_inv in H as (a & w1 & _ & H).
  apply bind_ret_inv in H as (g & w2 & _ & H).
  apply bind_ret_inv in H as (o & w3 & _ & H). cbv zeta in H.
  destruct (truthy _) in H.
  - inversion H; subst. apply rtc_refl.
  - apply bind_ret_inv in H as (x & w4 & _ & H).
    apply bind_ret_inv in H as (y & w5 & _ & H).
    apply bind_ret_inv in H as ([l c] & w6 & Hrun & H).
    inversion H; subst. apply rtc_once. cbn [snd].
    exists x, y, w5, l, w'. exact Hrun.
Qed.

Lemma write_features_cache_evolves (existing_rows : gmap string dict)
    (projected : list val) (features : list val) :
  forall (idx : nat) (cache cache' : gmap string val) (w w' : world),
    Main.write_features srv existing_rows projected idx features cache w
      = (Ret cache', w') ->
    cache_evolves srv cache cache'.
Proof.
  induction features as [|feat rest IH]; intros idx cache cache' w w' H.
  - inversion H; subst. apply rtc_refl.
  - cbn [Main.write_features] in H.
    apply bind_ret_inv in H as ([e c] & w1 & He & H).
    apply bind_ret_inv in H as (record & w2 & _ & H).
    apply bind_ret_inv in H as (u & w3 & _ & H).
    cbn [snd] in H. etrans.
    + eapply enrich_cache_evolves; eauto.
    + eapply IH; eauto.
Qed.

End SyncGeocoder.

(** ** Pagination *)

Section Fetch.
Context {Py : Python} (srv : server).

Lemma length_chars (s : string) : length (chars s) = String.length s.
Proof. induction s as [|c s IH]; cbn; [reflexivity|now rewrite IH]. Qed.

Lemma py_iter_len (v : val) (items : list val) :
  py_iter v = Ok items -> py_len v = Ok (length items).
Proof.
  destruct v; cbn; intros H; inversion H; subst; try reflexivity.
  - now rewrite length_chars.
  - now rewrite length_map.
Qed.

Lemma fetch_loop_step (fuel offset : nat) (acc : list val) (w : world) :
  Main.fetch_loop srv (S fuel) offset acc w =
    let ev := FetchPage offset Main.PAGE_SIZE in
    match page_of (srv (trace w) ev) with
    | Raise e => (Exc e, sent w ev)
    | Ok page =>
        if length page <? Main.PAGE_SIZE then (Ret (acc ++ page), sent w ev)
        else Main.fetch_loop srv fuel (offset + length page) (acc ++ page)
               (sent w ev)
    end.
Proof.
  cbn [Main.fetch_loop]. unfold Main.fetch_page, page_of, sent.
  unfold bind at 1. unfold request.
  destruct (srv (trace w) (FetchPage offset Main.PAGE_SIZE)) as [data|e];
    cbn [and_then]; [|reflexivity].
  unfold bind at 1. unfold lift at 1.
  destruct (py_get data "features" (VList [])) as [features|e];
    cbn [and_then ret raise]; [|reflexivity].
  destruct (truthy features); cbn [negb].
  - unfold bind at 1. unfold lift at 1.
    destruct (py_iter features) as [items|e] eqn:Hi; cbn [ret raise];
      [|reflexivity].
    unfold bind at 1. unfold lift at 1.
    rewrite (py_iter_len _ _ Hi). cbn [ret].
    destruct (length items <? Main.PAGE_SIZE); reflexivity.
  - cbn. now rewrite app_nil_r.
Qed.

Lemma length_concat_sum (pages : list (list val)) :
  length (concat pages) = sum_list (map length pages).
Proof.
  induction pages as [|p ps IH]; cbn; [reflexivity|].
  now rewrite length_app, IH.
Qed.

Lemma fetch_loop_complete (pages : list (list val)) :
  forall (fuel offset : nat) (acc : list val) (w : world),
    served srv (trace w) offset pages ->
    stops_at_last pages ->
    length pages <= fuel ->
    Main.fetch_loop srv fuel offset acc w =
      (Ret (acc ++ concat pages),
       World (trace w ++ page_requests offset pages) (written w)).
Proof.
  induction pages as [|page rest IH]; intros fuel offset acc w Hs Hstop Hf.
  - destruct Hstop.
  - destruct fuel as [|fuel]; [cbn in Hf; lia|].
    destruct Hs as [Hpage Hrest].
    rewrite fetch_loop_step. cbv zeta. rewrite Hpage.
    destruct rest as [|next rest'].
    + cbn in Hstop. apply Nat.ltb_lt in Hstop. rewrite Hstop.
      cbn. now rewrite app_nil_r.
    + destruct Hstop as [Hfull Hstop].
      assert (Hge : (length page <? Main.PAGE_SIZE) = false)
        by (apply Nat.ltb_ge; exact Hfull).
      rewrite Hge.
      rewrite (IH fuel (offset + length page) (acc ++ page)
                 (sent w (FetchPage offset Main.PAGE_SIZE)));
        [|exact Hrest|exact Hstop|cbn in Hf; cbn; lia].
      cbn [sent trace written concat page_requests].
      now rewrite <- !app_assoc.
Qed.

Lemma fetch_loop_sound (fuel : nat) :
  forall (offset : nat) (acc : list val) (w : world) (feats : list val)
         (w' : world),
    Main.fetch_loop srv fuel offset acc w = (Ret feats, w') ->
    exists pages,
      served srv (trace w) offset pages /\
      stops_at_last pages /\
      length pages <= fuel /\
      feats = acc ++ concat pages /\
      w' = World (trace w ++ page_requests offset pages) (written w).
Proof.
  induction fuel as [|fuel IH]; intros offset acc w feats w' Hrun.
  - discriminate.
  - rewrite fetch_loop_step in Hrun. cbv zeta in Hrun.
    destruct (page_of (srv (trace w) (FetchPage offset Main.PAGE_SIZE)))
      as [page|e] eqn:Hpage; [|discriminate].
    destruct (length page <? Main.PAGE_SIZE) eqn:Hlt.
    + inversion Hrun; subst. exists [page]. cbn.
      apply Nat.ltb_lt in Hlt. rewrite app_nil_r.
      repeat split; auto; lia.
    + apply IH in Hrun as (pages & Hs & Hstop & Hlen & -> & ->).
      exists (page :: pages). apply Nat.ltb_ge in Hlt.
      cbn [served stops_at_last length concat page_requests sent trace written] in *.
      repeat split; auto.
      * destruct pages; [destruct Hstop|]. split; assumption.
      * lia.
      * now rewrite <- app_assoc.
      * now rewrite <- app_assoc.
Qed.

(** C3.  Whenever the fetch loop returns, the pages it received are the
    service's answers to requests whose offsets advance by the number of
    features received, every page but the last holds at least 500 features,
    the last one fewer than 500 (possibly none), and the accumulated list is
    the concatenation of the pages, of length the sum of their lengths.
    Conversely, when the service's answers have that shape, the loop returns
    as soon as its fuel covers the number of pages. *)
Theorem paginated_fetch (w : world) :
  (forall (fuel : nat) (feats : list val) (w' : world),
     Main.fetch_loop srv fuel 0 [] w = (Ret feats, w') ->
     exists pages,
       served srv (trace w) 0 pages /\
       stops_at_last pages /\
       feats = concat pages /\
       length feats = sum_list (map length pages) /\
       w' = World (trace w ++ page_requests 0 pages) (written w)) /\
  (forall (pages : list (list val)) (fuel : nat),
     served srv (trace w) 0 pages ->
     stops_at_last pages ->
     length pages <= fuel ->
     Main.fetch_loop srv fuel 0 [] w =
       (Ret (concat pages),
        World (trace w ++ page_requests 0 pages) (written w)) /\
     length (concat pages) = sum_list (map length pages)).
Proof.
  split.
  - intros fuel feats w' Hrun.
    apply fetch_loop_sound in Hrun as (pages & Hs & Hstop & _ & -> & ->).
    exists pages. cbn [app]. repeat split; auto. apply length_concat_sum.
  - intros pages fuel Hs Hstop Hf. split; [|apply length_concat_sum].
    now rewrite (fetch_loop_complete pages fuel 0 [] w Hs Hstop Hf).
Qed.

End Fetch.

(** ** Projection in batches *)

Section Projection.
Context {Py : Python} (srv : server).

Lemma project_points_empty (w : world) :
  Main.project_points srv [] w = (Ret (VList []), w).
Proof. reflexivity. Qed.

Lemma project_points_batch (proj : val -> val) (points : list val) (w : world) :
  projects_pointwise srv proj ->
  points <> [] ->
  Main.project_points srv points w =
    (Ret (VList (map proj points)), sent w (Project points)).
Proof.
  intros Hsrv Hne. destruct (Hsrv (trace w) points Hne) as (d & Hd & Hg).
  destruct points as [|p ps]; [congruence|].
  unfold Main.project_points, bind, request. rewrite Hd.
  cbn [lift py_get]. unfold dict_get_default. now rewrite Hg.
Qed.

Lemma py_slice_step {A : Type} (l : list A) (i n : nat) :
  py_slice l i (i + n) = take n (drop i l).
Proof. unfold py_slice. f_equal. lia. Qed.

Lemma project_batches_run (proj : val -> val) (points : list val) :
  projects_pointwise srv proj ->
  forall (starts : list nat) (projected : list val) (w : world),
    Forall (fun i => i < length points) starts ->
    Main.project_batches srv starts points projected w =
      (Ret (projected ++
            map proj
              (concat
                 (map (fun i => py_slice points i (i + Main.batch_size)) starts))),
       World
         (trace w ++
          map Project
            (map (fun i => py_slice points i (i + Main.batch_size)) starts))
         (written w)).
Proof.
  intros Hsrv. induction starts as [|i rest IH]; intros projected w Hlt.
  - cbn. rewrite !app_nil_r. now destruct w.
  - inversion Hlt as [|? ? Hi Hrest]; subst.
    cbn [Main.project_batches]. unfold bind at 1.
    rewrite (project_points_batch proj); [|assumption|].
    + unfold bind at 1. cbn [lift py_iter ret].
      rewrite IH by assumption. cbn [sent trace written map concat].
      rewrite map_app, <- !app_assoc. reflexivity.
    + rewrite py_slice_step. intros Hnil.
      apply (f_equal (@length val)) in Hnil.
      rewrite length_take, length_drop in Hnil.
      unfold Main.batch_size in Hnil. cbn [length] in Hnil. lia.
Qed.

Lemma concat_slices {A : Type} (l : list A) (n k : nat) :
  concat (map (fun i => take n (drop i l)) (map (fun j => 0 + j * n) (seq 0 k)))
  = take (k * n) l.
Proof.
  induction k as [|k IH]; [reflexivity|].
  rewrite seq_S, !map_app, concat_app, IH. cbn [map concat].
  rewrite app_nil_r, take_take_drop. f_equal. lia.
Qed.

Lemma range_covers (len n : nat) :
  0 < n -> len <= (len - 0 + (n - 1)) / n * n.
Proof.
  intros Hn. pose proof (Nat.div_mod_eq (len - 0 + (n - 1)) n) as Hd.
  pose proof (Nat.mod_upper_bound (len - 0 + (n - 1)) n) as Hm. nia.
Qed.

Lemma range_in_bounds (len n : nat) :
  0 < n -> Forall (fun i => i < len) (py_range 0 len n).
Proof.
  intros Hn. unfold py_range. apply List.Forall_forall. intros i Hi.
  apply in_map_iff in Hi as (j & <- & Hj). apply in_seq in Hj.
  pose proof (Nat.div_mod_eq (len - 0 + (n - 1)) n) as Hd.
  pose proof (Nat.mod_upper_bound (len - 0 + (n - 1)) n) as Hm. nia.
Qed.

Lemma concat_batches (points : list val) : concat (batches points) = points.
Proof.
  unfold batches, py_range.
  erewrite map_ext; [|intros i; apply py_slice_step].
  rewrite concat_slices. apply take_ge, range_covers.
  unfold Main.batch_size. lia.
Qed.

(** C4.  [project_points] of the empty list is the empty list and sends
    nothing.  When the projection endpoint answers each batch with the
    projections of its points in order, the batched stage (batches of at most
    200 points, none empty) returns a list of the length of its input whose
    i-th element is the projection of the i-th input point. *)
Theorem projection_keeps_order :
  (forall w : world, Main.project_points srv [] w = (Ret (VList []), w)) /\
  (forall (proj : val -> val) (points : list val) (w : world),
     projects_pointwise srv proj ->
     exists projected,
       Main.project_batches srv
         (py_range 0 (length points) Main.batch_size) points [] w
       = (Ret projected,
          World (trace w ++ map Project (batches points)) (written w)) /\
       length projected = length points /\
       (forall i, projected !! i = proj <$> points !! i) /\
       Forall (fun batch => 0 < length batch <= Main.batch_size)
         (batches points)).
Proof.
  split; [apply project_points_empty|].
  intros proj points w Hsrv. exists (map proj points).
  split; [|split; [|split]].
  - rewrite (project_batches_run proj points Hsrv).
    + fold (batches points). now rewrite concat_batches.
    + apply range_in_bounds. unfold Main.batch_size. lia.
  - apply length_map.
  - intros i. apply list_lookup_fmap.
  - unfold batches. apply List.Forall_forall. intros b Hb.
    apply in_map_iff in Hb as (i & <- & Hi).
    assert (Hpos : 0 < Main.batch_size) by (unfold Main.batch_size; lia).
    pose proof (range_in_bounds (length points) Main.batch_size Hpos) as Hr.
    rewrite List.Forall_forall in Hr. specialize (Hr i Hi).
    rewrite py_slice_step, length_take, length_drop. lia.
Qed.

End Projection.

(** ** The merge with the previous run *)

Section Merge.
Context {Py : Python} (srv : server).

Lemma dict_get_csv_cell (row : dict) (k : string) (v : val) :
  csv_row row = true -> dict_get row k = Some v -> csv_cell v = true.
Proof.
  induction row as [|[k' v'] row IH]; cbn; [discriminate|].
  intros Hrow Hget. apply andb_prop in Hrow as [Hv Hrow].
  destruct (String.eqb k' k); [now inversion Hget; subst|auto].
Qed.

Lemma reuse_cell (row : dict) (k : string) :
  csv_row row = true ->
  py_or (dict_get_default row k VNone) (VStr "") = VStr (cell_text row k).
Proof.
  intros Hrow. unfold dict_get_default, cell_text.
  destruct (dict_get row k) as [v|] eqn:Hget; [|reflexivity].
  pose proof (dict_get_csv_cell _ _ _ Hrow Hget) as Hv.
  destruct v; try discriminate; [reflexivity|].
  unfold py_or. cbn [truthy].
  destruct (String.eqb_spec s ""); subst; reflexivity.
Qed.

Lemma enrich_existing (existing_rows : gmap string dict) (projected : list val)
    (idx : nat) (feat : val) (cache : gmap string val) (w : world)
    (oid : string) (row : dict) :
  feature_objectid feat = Ok oid ->
  existing_rows !! oid = Some row ->
  row <> [] ->
  exists a g,
    Main.enrich srv existing_rows projected idx feat cache w =
      (Ret (Main.Enriched a g oid
              (py_or (dict_get_default row "LON_WGS84" VNone) (VStr ""))
              (py_or (dict_get_default row "LAT_WGS84" VNone) (VStr ""))
              (py_or (dict_get_default row "RUE_REVERSE" VNone) (VStr "")),
            cache), w).
Proof.
  unfold feature_objectid, Main.enrich. intros Hoid Hrow Hne.
  destruct (py_get feat "attributes" (VDict [])) as [a|e] eqn:Ha;
    cbn [and_then] in Hoid; [|discriminate].
  destruct (py_get a "OBJECTID" (VStr "")) as [o|e] eqn:Ho;
    cbn [and_then] in Hoid; [|discriminate].
  inversion Hoid; subst oid.
  assert (Hg : exists g, py_get feat "geometry" (VDict []) = Ok g).
  { destruct feat; cbn in Ha; try discriminate. cbn. eauto. }
  destruct Hg as [g Hg].
  exists a, (py_or g (VDict [])).
  rewrite bind_lift_ok, Hg, bind_lift_ok, Ho, bind_lift_ok.
  cbv beta zeta. rewrite Hrow. cbn [default]. destruct row as [|kv row']; [congruence|]. reflexivity.
Qed.

Lemma write_features_step (existing_rows : gmap string dict)
    (projected : list val) (idx : nat) (feat : val) (rest : list val)
    (cache : gmap string val) (w : world) (e : Main.enriched) :
  Main.enrich srv existing_rows projected idx feat cache w = (Ret (e, cache), w) ->
  Main.write_features srv existing_rows projected idx (feat :: rest) cache w =
    (record <- lift (Main.output_record e) ;;
     writerow record ;;;
     Main.write_features srv existing_rows projected (S idx) rest cache) w.
Proof.
  intros He. cbn [Main.write_features]. unfold bind at 1. now rewrite He.
Qed.

Lemma output_record_tail (e : Main.enriched) (record : list val)
    (lon lat : string) :
  Main.lon e = VStr lon ->
  Main.lat e = VStr lat ->
  Main.output_record e = Ok record ->
  drop 7 record = [VStr lon; VStr lat; Main.street_label e].
Proof.
  unfold Main.output_record. intros -> ->.
  repeat match goal with
  | |- and_then ?r _ = _ -> _ => destruct r; cbn [and_then]; [|discriminate]
  end.
  intros H. inversion H. reflexivity.
Qed.

Lemma load_existing_fold (rows : list dict) :
  Main.load_existing (Some rows) = foldl load_row ∅ rows.
Proof. reflexivity. Qed.

Lemma load_rows_keep (oid : string) (row : dict) (after : list dict) :
  Forall (fun r => row_key r <> VStr oid) after ->
  forall cache : gmap string dict,
    cache !! oid = Some row -> foldl load_row cache after !! oid = Some row.
Proof.
  induction 1 as [|r after Hr _ IH]; intros cache Hc; [assumption|].
  cbn [foldl]. apply IH. unfold load_row.
  destruct (row_key r) as [| | |k| |] eqn:Hk; try assumption.
  rewrite lookup_insert_ne; [assumption|]. intros ->. now apply Hr.
Qed.

(** The record [load_existing] keeps for an OBJECTID is the last one of the
    file that carries it. *)
Lemma load_existing_last (before after : list dict) (row : dict) (oid : string) :
  row_key row = VStr oid ->
  Forall (fun r => row_key r <> VStr oid) after ->
  Main.load_existing (Some (before ++ row :: after)) !! oid = Some row.
Proof.
  intros Hkey Hafter. rewrite load_existing_fold, foldl_app. cbn [foldl].
  apply load_rows_keep; [assumption|].
  unfold load_row. rewrite Hkey. apply lookup_insert_eq.
Qed.

End Merge.

(** ** The reverse geocoder of the repair script *)

Section RepairGeocoder.
Context {Py : Python} (srv : server).

Lemma reverse_geocode_from_step (attempt : nat) (rest : list nat)
    (lon lat : number) (w : world) :
  FillMissingRues.reverse_geocode_from srv (attempt :: rest) lon lat w =
    let req := ReverseGeocode (VNum lon) (VNum lat) in
    match repair_attempt srv (trace w) lon lat with
    | Ok label => (Ret label, sent w req)
    | Raise _ =>
        if attempt =? FillMissingRues.MAX_RETRIES
        then (Ret (VStr ""), sent w req)
        else FillMissingRues.reverse_geocode_from srv rest lon lat
               (sent (sent w req) (Sleep (FillMissingRues.backoff attempt)))
    end.
Proof.
  cbn [FillMissingRues.reverse_geocode_from].
  unfold try_except, bind, request, repair_attempt, sent.
  destruct (srv (trace w) (ReverseGeocode (VNum lon) (VNum lat))) as [data|e];
    cbn [and_then].
  - unfold lift. destruct (FillMissingRues.address_label data) as [l|e];
      cbn [ret raise]; [reflexivity|].
    destruct (attempt =? FillMissingRues.MAX_RETRIES); reflexivity.
  - destruct (attempt =? FillMissingRues.MAX_RETRIES); reflexivity.
Qed.

Lemma repair_reverse_geocode_value (lon lat : number) (w : world) :
  let req := ReverseGeocode (VNum lon) (VNum lat) in
  let t1 := trace w in
  let t2 := t1 ++ [req; Sleep (FillMissingRues.backoff 1)] in
  let t3 := t2 ++ [req; Sleep (FillMissingRues.backoff 2)] in
  FillMissingRues.reverse_geocode srv lon lat w =
    match repair_attempt srv t1 lon lat with
    | Ok label => (Ret label, World (t1 ++ [req]) (written w))
    | Raise _ =>
        match repair_attempt srv t2 lon lat with
        | Ok label => (Ret label, World (t2 ++ [req]) (written w))
        | Raise _ =>
            (Ret (label_or_empty (repair_attempt srv t3 lon lat)),
             World (t3 ++ [req]) (written w))
        end
    end.
Proof.
  cbv zeta. unfold FillMissingRues.reverse_geocode.
  change (py_range 1 (FillMissingRues.MAX_RETRIES + 1) 1) with [1; 2; 3].
  rewrite reverse_geocode_from_step. cbv zeta. unfold sent.
  destruct (repair_attempt srv (trace w) lon lat) as [l1|e1]; [reflexivity|].
  cbn [Nat.eqb FillMissingRues.MAX_RETRIES].
  rewrite reverse_geocode_from_step. cbv zeta. unfold sent. cbn [trace written].
  rewrite <- !app_assoc. cbn [app].
  destruct (repair_attempt srv _ lon lat) as [l2|e2]; [reflexivity|].
  cbn [Nat.eqb FillMissingRues.MAX_RETRIES].
  rewrite reverse_geocode_from_step. cbv zeta. unfold sent. cbn [trace written].
  rewrite <- !app_assoc. cbn [app].
  destruct (repair_attempt srv _ lon lat) as [l3|e3]; reflexivity.
Qed.

(** C7.  The repair script's [reverse_geocode] always returns and sends at
    most three requests: after a first failure it sleeps 0.5 seconds, after a
    second one 1 second, and after a third failure it returns the empty
    string without a further sleep. *)
Theorem repair_reverse_geocode_retries (lon lat : number) (w : world) :
  let req := ReverseGeocode (VNum lon) (VNum lat) in
  let pause1 := Sleep (FillMissingRues.backoff 1) in
  let pause2 := Sleep (FillMissingRues.backoff 2) in
  let t1 := trace w in
  let t2 := t1 ++ [req; pause1] in
  let t3 := t2 ++ [req; pause2] in
  (FillMissingRues.backoff 1 == 1 # 2)%Q /\
  (FillMissingRues.backoff 2 == 1)%Q /\
  exists (label : val) (w' : world),
    FillMissingRues.reverse_geocode srv lon lat w = (Ret label, w') /\
    written w' = written w /\
    ((repair_attempt srv t1 lon lat = Ok label /\ trace w' = t1 ++ [req]) \/
     ((exists e, repair_attempt srv t1 lon lat = Raise e) /\
      repair_attempt srv t2 lon lat = Ok label /\ trace w' = t2 ++ [req]) \/
     ((exists e, repair_attempt srv t1 lon lat = Raise e) /\
      (exists e, repair_attempt srv t2 lon lat = Raise e) /\
      trace w' = t3 ++ [req] /\
      match repair_attempt srv t3 lon lat with
      | Ok found => label = found
      | Raise _ => label = VStr ""
      end)).
Proof.
  cbv zeta. split; [reflexivity|]. split; [reflexivity|].
  rewrite repair_reverse_geocode_value. cbv zeta.
  destruct (repair_attempt srv (trace w) lon lat) as [l1|e1] eqn:H1.
  { eexists _, _. split; [reflexivity|]. split; [reflexivity|]. left. auto. }
  destruct (repair_attempt srv (trace w ++ _) lon lat) as [l2|e2] eqn:H2.
  { eexists _, _. split; [reflexivity|]. split; [reflexivity|].
    right. left. eauto. }
  eexists _, _. split; [reflexivity|]. split; [reflexivity|].
  right. right. split; [eauto|]. split; [eauto|]. split; [reflexivity|].
  unfold label_or_empty.
  match goal with |- match ?r with _ => _ end => destruct r end; reflexivity.
Qed.

End RepairGeocoder.

(** ** The repair of the rows *)

Section Repair.
Context {Py : Python} (srv : server).

Lemma same_keys_eq (a b : list string) : same_keys a b = true -> a = b.
Proof.
  revert b. induction a as [|x a IH]; intros [|y b]; cbn; try discriminate; auto.
  intros H. apply andb_prop in H as [Hx Ha]. apply String.eqb_eq in Hx.
  f_equal; auto.
Qed.

Lemma existsb_member (k : string) (keys : list string) :
  In k keys -> existsb (String.eqb k) keys = true.
Proof.
  intros H. apply existsb_exists. exists k. split; [assumption|].
  apply String.eqb_refl.
Qed.

Lemma dict_get_fresh (d : dict) (k : string) :
  existsb (String.eqb k) (dict_keys d) = false -> dict_get d k = None.
Proof.
  induction d as [|[k' v] d IH]; cbn; [reflexivity|].
  intros H. apply orb_false_elim in H as [Hk Hd].
  rewrite String.eqb_sym, Hk. auto.
Qed.

(** With distinct keys, reading a dict column by column gives its values. *)
Lemma values_in_order (d : dict) (default : val) :
  distinct (dict_keys d) = true ->
  map (fun k => dict_get_default d k default) (dict_keys d) = map snd d.
Proof.
  induction d as [|[k v] d IH]; cbn; [reflexivity|].
  intros H. apply andb_prop in H as [Hk Hd].
  apply negb_true_iff in Hk.
  unfold dict_get_default at 1. cbn. rewrite String.eqb_refl. f_equal.
  rewrite <- (IH Hd). apply map_ext_in. intros k' Hin.
  unfold dict_get_default. cbn.
  destruct (String.eqb_spec k k') as [->|Hne]; [|reflexivity].
  apply existsb_member in Hin. unfold dict_keys in *. cbn in Hk. congruence.
Qed.

Lemma dict_set_keys (d : dict) (k : string) (v : val) :
  In k (dict_keys d) -> dict_keys (dict_set d k v) = dict_keys d.
Proof.
  induction d as [|[k' v'] d IH]; cbn; [intros []|].
  intros [->|Hin].
  - now rewrite String.eqb_refl.
  - destruct (String.eqb k' k); [reflexivity|]. cbn. f_equal. auto.
Qed.

Lemma dict_get_set (d : dict) (k : string) (v : val) :
  dict_get (dict_set d k v) k = Some v.
Proof.
  induction d as [|[k' v'] d IH]; cbn.
  - now rewrite String.eqb_refl.
  - destruct (String.eqb k' k) eqn:E; cbn; rewrite E; auto.
Qed.

Lemma dict_get_in_keys (d : dict) (k : string) (v : val) :
  dict_get d k = Some v -> In k (dict_keys d).
Proof.
  induction d as [|[k' v'] d IH]; cbn; [discriminate|].
  destruct (String.eqb_spec k' k); [auto|]. intros H. right. auto.
Qed.

Lemma skip_test (rue : string) :
  truthy (VStr rue) && negb (String.eqb (upper rue) "MISSING_RUE")
  = negb (label_missing rue).
Proof.
  unfold label_missing. cbn [truthy]. now rewrite negb_orb.
Qed.

Lemma fill_row_skipped (row : dict) (w : world) (rue : string) :
  py_strip (dict_get_default row "RUE_REVERSE" (VStr "")) = Ok rue ->
  label_missing rue = false ->
  FillMissingRues.fill_row srv row w = (Ret row, w).
Proof.
  intros Hrue Hm. unfold FillMissingRues.fill_row.
  rewrite Hrue, bind_lift_ok. cbv zeta. now rewrite skip_test, Hm.
Qed.

Lemma fill_row_candidate (row : dict) (w : world) (rue : string) :
  py_strip (dict_get_default row "RUE_REVERSE" (VStr "")) = Ok rue ->
  label_missing rue = true ->
  FillMissingRues.fill_row srv row w =
    (coords <- lift (FillMissingRues.parse_coordinates
                       (dict_get_default row "LON_WGS84" VNone)
                       (dict_get_default row "LAT_WGS84" VNone)) ;;
     match coords with
     | (Some lon_f, Some lat_f) =>
         label <- FillMissingRues.reverse_geocode srv lon_f lat_f ;;
         sleep FillMissingRues.SLEEP_SECONDS ;;;
         ret (if truthy label then dict_set row "RUE_REVERSE" label else row)
     | _ => ret row
     end) w.
Proof.
  intros Hrue Hm. unfold FillMissingRues.fill_row.
  rewrite Hrue, bind_lift_ok. cbv zeta. now rewrite skip_test, Hm.
Qed.

(** A cell that is text or [None] never makes [float] raise anything but
    [ValueError], which the script catches. *)
Lemma parse_coordinates_csv (lon lat : val) :
  csv_cell lon = true -> csv_cell lat = true ->
  exists a b,
    FillMissingRues.parse_coordinates lon lat = Ok (a, b) /\
    (has_coordinate lon && has_coordinate lat = false -> a = None \/ b = None).
Proof.
  unfold FillMissingRues.parse_coordinates, FillMissingRues.float_or_none.
  intros Hlon Hlat.
  destruct lon as [| | |lon_s| |]; try discriminate;
  destruct lat as [| | |lat_s| |]; try discriminate;
  cbn [FillMissingRues.is_blank py_float has_coordinate and_then];
  repeat match goal with
  | |- context [if ?b then _ else _] => destruct b; cbn [and_then]
  | |- context [float_of_string ?s] =>
      destruct (float_of_string s); cbn [and_then andb]
  end;
  eexists _, _; (split; [reflexivity|]); intros; auto; discriminate.
Qed.

Lemma parse_coordinates_found (lon_s lat_s : string) (x y : number) :
  float_of_string "" = None ->
  float_of_string "None" = None ->
  float_of_string lon_s = Some x ->
  float_of_string lat_s = Some y ->
  FillMissingRues.parse_coordinates (VStr lon_s) (VStr lat_s)
    = Ok (Some x, Some y).
Proof.
  intros He Hn Hx Hy.
  assert (Hb : forall s z, float_of_string s = Some z ->
               FillMissingRues.is_blank (VStr s) = false).
  { intros s z Hs. cbn.
    destruct (String.eqb_spec s ""); [congruence|].
    destruct (String.eqb_spec s "None"); [congruence|]. reflexivity. }
  unfold FillMissingRues.parse_coordinates, FillMissingRues.float_or_none.
  rewrite (Hb _ _ Hx), (Hb _ _ Hy). cbn [py_float]. now rewrite Hx, Hy.
Qed.

Lemma repair_reverse_geocode_returns (lon lat : number) (w : world) :
  exists label w',
    FillMissingRues.reverse_geocode srv lon lat w = (Ret label, w') /\
    written w' = written w /\
    (exists later,
       trace w' = trace w ++ ReverseGeocode (VNum lon) (VNum lat) :: later) /\
    ((forall history, exists e, repair_attempt srv history lon lat = Raise e) ->
     label = VStr "").
Proof.
  rewrite repair_reverse_geocode_value. cbv zeta.
  destruct (repair_attempt srv (trace w) lon lat) as [l1|e1] eqn:H1.
  { eexists _, _. split; [reflexivity|]. split; [reflexivity|].
    split; [now exists []|]. intros Hall.
    destruct (Hall (trace w)) as [e He]. congruence. }
  destruct (repair_attempt srv (trace w ++ _) lon lat) as [l2|e2] eqn:H2.
  { eexists _, _. split; [reflexivity|]. split; [reflexivity|].
    split.
    - cbn [trace]. rewrite <- app_assoc. cbn [app]. eauto.
    - intros Hall.
      match type of H2 with repair_attempt _ ?h _ _ = _ =>
        destruct (Hall h) as [e He] end.
      congruence. }
  eexists _, _. split; [reflexivity|]. split; [reflexivity|]. split.
  - cbn [trace]. rewrite <- !app_assoc. cbn [app]. eauto.
  - intros Hall. destruct (Hall ((trace w ++
      [ReverseGeocode (VNum lon) (VNum lat); Sleep (FillMissingRues.backoff 1)]) ++
      [ReverseGeocode (VNum lon) (VNum lat); Sleep (FillMissingRues.backoff 2)]))
      as [e He].
    now rewrite He.
Qed.

(** C2 (as amended).  In the repair, a row whose stripped RUE_REVERSE is
    blank or the sentinel in any letter case, and whose LON_WGS84 and
    LAT_WGS84 are texts that [float] reads, is looked up again: the first
    thing the body does is a reverse-geocode request for these coordinates.
    A truthy label overwrites RUE_REVERSE; when every attempt fails the row
    is left exactly as it was read. *)
Theorem repair_fills_missing (row : dict) (w : world)
    (r lon_s lat_s : string) (x y : number) :
  float_of_string "" = None ->
  float_of_string "None" = None ->
  dict_get row "RUE_REVERSE" = Some (VStr r) ->
  label_missing (strip r) = true ->
  dict_get row "LON_WGS84" = Some (VStr lon_s) ->
  float_of_string lon_s = Some x ->
  dict_get row "LAT_WGS84" = Some (VStr lat_s) ->
  float_of_string lat_s = Some y ->
  exists (label : val) (w1 : world),
    FillMissingRues.reverse_geocode srv x y w = (Ret label, w1) /\
    (exists later,
       trace w1 = trace w ++ ReverseGeocode (VNum x) (VNum y) :: later) /\
    FillMissingRues.fill_row srv row w =
      (Ret (if truthy label then dict_set row "RUE_REVERSE" label else row),
       sent w1 (Sleep FillMissingRues.SLEEP_SECONDS)) /\
    (truthy label = true ->
     dict_get (dict_set row "RUE_REVERSE" label) "RUE_REVERSE" = Some label) /\
    ((forall history, exists e, repair_attempt srv history x y = Raise e) ->
     FillMissingRues.fill_row srv row w =
       (Ret row, sent w1 (Sleep FillMissingRues.SLEEP_SECONDS))).
Proof.
  intros He Hn Hr Hm Hlon Hx Hlat Hy.
  destruct (repair_reverse_geocode_returns x y w)
    as (label & w1 & Hrun & _ & Htrace & Hfail).
  assert (Hfill :
    FillMissingRues.fill_row srv row w =
      (Ret (if truthy label then dict_set row "RUE_REVERSE" label else row),
       sent w1 (Sleep FillMissingRues.SLEEP_SECONDS))).
  { rewrite (fill_row_candidate row w (strip r)); [|
      unfold dict_get_default; now rewrite Hr|assumption].
    unfold dict_get_default. rewrite Hlon, Hlat.
    rewrite (parse_coordinates_found _ _ _ _ He Hn Hx Hy), bind_lift_ok.
    unfold bind at 1. rewrite Hrun. reflexivity. }
  exists label, w1. split; [assumption|]. split; [assumption|].
  split; [assumption|]. split.
  - intros _. apply dict_get_set.
  - intros Hall. rewrite Hfill, (Hfail Hall). reflexivity.
Qed.

Lemma fill_row_csv (header : list string) (row : dict) (w : world) :
  record_of header row = true ->
  exists row' w',
    FillMissingRues.fill_row srv row w = (Ret row', w') /\
    dict_keys row' = dict_keys row /\
    written w' = written w /\
    (left_alone row = true -> row' = row /\ w' = w).
Proof.
  unfold record_of. intros H.
  apply andb_prop in H as [H Hrue]. apply andb_prop in H as [_ Hcsv].
  destruct (dict_get row "RUE_REVERSE") as [[| | |r| |]|] eqn:Hr;
    try discriminate.
  assert (Hstrip : py_strip (dict_get_default row "RUE_REVERSE" (VStr ""))
                   = Ok (strip r))
    by (unfold dict_get_default; now rewrite Hr).
  assert (Htext : cell_text row "RUE_REVERSE" = r)
    by (unfold cell_text; now rewrite Hr).
  unfold left_alone. rewrite Htext.
  destruct (label_missing (strip r)) eqn:Hm.
  - rewrite (fill_row_candidate row w (strip r) Hstrip Hm).
    assert (Hcell : forall k, csv_cell (dict_get_default row k VNone) = true).
    { intros k. unfold dict_get_default.
      destruct (dict_get row k) eqn:Hk; [|reflexivity].
      eapply dict_get_csv_cell; eauto. }
    destruct (parse_coordinates_csv _ _ (Hcell "LON_WGS84") (Hcell "LAT_WGS84"))
      as (a & b & Hparse & Hnone).
    rewrite Hparse, bind_lift_ok.
    destruct a as [lon_f|], b as [lat_f|];
      try (exists row, w; repeat split; reflexivity).
    destruct (repair_reverse_geocode_returns lon_f lat_f w)
      as (label & w1 & Hrun & Hw & _ & _).
    unfold bind at 1. rewrite Hrun.
    eexists _, _. split; [reflexivity|]. split; [|split].
    + destruct (truthy label); [|reflexivity].
      apply dict_set_keys. eapply dict_get_in_keys; eauto.
    + exact Hw.
    + cbn [negb orb]. intros Hleft. apply negb_true_iff in Hleft.
      destruct (Hnone Hleft); discriminate.
  - rewrite (fill_row_skipped row w (strip r) Hstrip Hm).
    exists row, w. repeat split; reflexivity.
Qed.

Lemma fill_rows_csv (header : list string) (rows : list dict) :
  forall w : world,
    forallb (record_of header) rows = true ->
    exists rows' w',
      for_each (FillMissingRues.fill_row srv) rows w = (Ret rows', w') /\
      written w' = written w /\
      Forall2 (fun row row' => dict_keys row' = dict_keys row) rows rows' /\
      (forall i row,
         rows !! i = Some row -> left_alone row = true -> rows' !! i = Some row).
Proof.
  induction rows as [|row rows IH]; intros w Hall.
  - exists [], w. repeat split; [constructor|]. intros i row Hi. discriminate.
  - cbn [forallb] in Hall. apply andb_prop in Hall as [Hrow Hall].
    destruct (fill_row_csv header row w Hrow) as (row' & w1 & Hfill & Hk & Hw1 & Hsame).
    destruct (IH w1 Hall) as (rows' & w2 & Hrest & Hw2 & Hkeys & Hkept).
    exists (row' :: rows'), w2. cbn [for_each].
    unfold bind at 1. rewrite Hfill. unfold bind at 1. rewrite Hrest.
    split; [reflexivity|]. split; [congruence|]. split; [now constructor|].
    intros [|i] r Hi Hleft; cbn in Hi |- *.
    + inversion Hi; subst. now destruct (Hsame Hleft) as [-> _].
    + eauto.
Qed.

Lemma dict_to_list_own_header (header : list string) (rowdict : dict) :
  dict_keys rowdict = header ->
  distinct header = true ->
  FillMissingRues.dict_to_list header rowdict = Ok (map snd rowdict).
Proof.
  intros <- Hd. unfold FillMissingRues.dict_to_list.
  replace (forallb _ (dict_keys rowdict)) with true.
  - now rewrite values_in_order.
  - symmetry. apply forallb_forall. intros k Hk. now apply existsb_member.
Qed.

Lemma writerows_own_header (header : list string) (rows : list dict) :
  distinct header = true ->
  Forall (fun row => dict_keys row = header) rows ->
  forall (history : list event) (records : list (list val)),
    for_each
      (fun rowdict =>
         record <- lift (FillMissingRues.dict_to_list header rowdict) ;;
         writerow record)
      rows (World history (Some records))
    = (Ret (map (fun _ => tt) rows),
       World history (Some (records ++ map (map snd) rows))).
Proof.
  intros Hd. induction 1 as [|row rows Hrow _ IH]; intros history records.
  - cbn. now rewrite app_nil_r.
  - cbn [for_each]. unfold bind at 1.
    rewrite (dict_to_list_own_header _ _ Hrow Hd), bind_lift_ok.
    unfold writerow at 1. cbn [trace written].
    unfold bind at 1. rewrite IH. cbn [map]. now rewrite <- app_assoc.
Qed.


(** C10.  On a file with no data row the repair raises [IndexError] and
    leaves the world as it was: nothing is requested and nothing is
    written. *)
Theorem repair_empty_file_raises (w : world) :
  FillMissingRues.main srv (Some []) w = (Exc IndexError, w) /\
  written (snd (FillMissingRues.main srv (Some []) w)) = written w /\
  trace (snd (FillMissingRues.main srv (Some []) w)) = trace w.
Proof. repeat split. Qed.

Lemma space_keeps_case (c : ascii) : is_space c = true -> upper_char c = c.
Proof.
  destruct c as [[] [] [] [] [] [] [] []]; intros H; try reflexivity;
    discriminate H.
Qed.

Lemma letter_not_space (c l : ascii) :
  upper_char c = l -> is_space l = false -> is_space c = false.
Proof.
  intros Hu Hl. destruct (is_space c) eqn:Hs; [|reflexivity].
  rewrite (space_keeps_case c Hs) in Hu. congruence.
Qed.

Lemma sentinel_is_stripped (r : string) :
  upper r = "MISSING_RUE" -> strip r = r.
Proof.
  intros H.
  do 12 (destruct r as [|? r]; cbn [upper] in H; try discriminate H).
  inversion H as [[H1 H2 H3 H4 H5 H6 H7 H8 H9 H10 H11]].
  unfold strip. cbn [lstrip].
  rewrite (letter_not_space _ _ H1 eq_refl).
  cbn [rstrip]. rewrite (letter_not_space _ _ H11 eq_refl). reflexivity.
Qed.

Lemma claimed_condition_is_missing (r : string) :
  r = "" \/ upper r = "MISSING_RUE" -> label_missing (strip r) = true.
Proof.
  intros [->|H]; [reflexivity|].
  rewrite (sentinel_is_stripped r H). unfold label_missing.
  rewrite H. apply orb_true_r.
Qed.

End Repair.

(** ** Whole runs: effects, files and budgets *)

Section Effects.
Context {Py : Python}.

#[local] Instance sends_reflexive (P : event -> bool) : Reflexive (sends P).
Proof. intros w. exists []. now rewrite app_nil_r. Qed.

#[local] Instance sends_transitive (P : event -> bool) : Transitive (sends P).
Proof.
  intros w1 w2 w3 (e1 & H1 & P1) (e2 & H2 & P2). exists (e1 ++ e2).
  rewrite H2, H1, <- app_assoc, forallb_app, P1, P2. auto.
Qed.

#[local] Instance keeps_file_reflexive : Reflexive keeps_file.
Proof. intros w. reflexivity. Qed.

#[local] Instance keeps_file_transitive : Transitive keeps_file.
Proof. unfold keeps_file. intros w1 w2 w3 H1 H2. congruence. Qed.

Lemma effect_ret {A : Type} (R : relation world) `{!Reflexive R} (a : A) :
  effect R (ret a).
Proof. intros w. reflexivity. Qed.

Lemma effect_raise {A : Type} (R : relation world) `{!Reflexive R} (e : exn) :
  effect R (raise (A := A) e).
Proof. intros w. reflexivity. Qed.

Lemma effect_lift {A : Type} (R : relation world) `{!Reflexive R}
    (r : result A) :
  effect R (lift r).
Proof. destruct r; [now apply effect_ret|now apply effect_raise]. Qed.

Lemma effect_bind {A B : Type} (R : relation world) `{!Transitive R}
    (m : M A) (k : A -> M B) :
  effect R m -> (forall a, effect R (k a)) -> effect R (bind m k).
Proof.
  intros Hm Hk w. specialize (Hm w). unfold bind.
  destruct (m w) as [[a|e|] w1]; cbn [snd] in *; try assumption.
  etrans; [exact Hm|apply Hk].
Qed.

Lemma effect_try_except {A : Type} (R : relation world) `{!Transitive R}
    (body : M A) (handler : exn -> M A) :
  effect R body -> (forall e, effect R (handler e)) ->
  effect R (try_except body handler).
Proof.
  intros Hb Hh w. specialize (Hb w). unfold try_except.
  destruct (body w) as [[a|e|] w1]; cbn [snd] in *; try assumption.
  etrans; [exact Hb|apply Hh].
Qed.

Lemma effect_for_each {A B : Type} (R : relation world)
    `{!Reflexive R} `{!Transitive R} (f : A -> M B) (l : list A) :
  (forall x, effect R (f x)) -> effect R (for_each f l).
Proof.
  intros Hf. induction l as [|x l IH]; cbn [for_each].
  - now apply effect_ret.
  - apply effect_bind; [assumption|apply Hf|]. intros y.
    apply effect_bind; [assumption|apply IH|]. intros ys.
    now apply effect_ret.
Qed.

Lemma sends_request (P : event -> bool) (srv : server) (ev : event) :
  P ev = true -> effect (sends P) (request srv ev).
Proof.
  intros HP w. unfold request. exists [ev].
  destruct (srv (trace w) ev); cbn; now rewrite HP.
Qed.

Lemma sends_sleep (P : event -> bool) (seconds : Q) :
  P (Sleep seconds) = true -> effect (sends P) (sleep seconds).
Proof. intros HP w. exists [Sleep seconds]. cbn. now rewrite HP. Qed.

Lemma sends_writerow (P : event -> bool) (record : list val) :
  effect (sends P) (writerow record).
Proof. intros w. exists []. cbn. now rewrite app_nil_r. Qed.

Lemma sends_open (P : event -> bool) : effect (sends P) open_for_writing.
Proof. intros w. exists []. cbn. now rewrite app_nil_r. Qed.

Lemma keeps_file_request (srv : server) (ev : event) :
  effect keeps_file (request srv ev).
Proof. intros w. unfold request. now destruct (srv (trace w) ev). Qed.

Lemma keeps_file_sleep (seconds : Q) : effect keeps_file (sleep seconds).
Proof. intros w. reflexivity. Qed.

End Effects.

Section SyncRows.
Context {Py : Python} (srv : server).

Lemma load_row_lookup (cache : gmap string dict) (row : dict) (oid : string) :
  load_row cache row !! oid = if has_key oid row then Some row else cache !! oid.
Proof.
  unfold load_row, has_key. destruct (row_key row) as [| | |k| |]; try reflexivity.
  destruct (String.eqb_spec k oid) as [->|Hne].
  - apply lookup_insert_eq.
  - now apply lookup_insert_ne.
Qed.

Lemma load_rows_lookup (rows : list dict) (oid : string) :
  forall cache : gmap string dict,
    foldl load_row cache rows !! oid =
      match last (List.filter (has_key oid) rows) with
      | Some row => Some row
      | None => cache !! oid
      end.
Proof.
  induction rows as [|row rows IH]; intros cache; [reflexivity|].
  cbn [foldl List.filter]. rewrite IH, load_row_lookup.
  destruct (has_key oid row); [|reflexivity].
  destruct (List.filter (has_key oid) rows) as [|r rs] eqn:Hf; [reflexivity|].
  change (last (row :: r :: rs)) with (last (r :: rs)).
  destruct (last (r :: rs)) eqn:Hl; [reflexivity|].
  apply last_None in Hl. discriminate.
Qed.

(** X1.  Without a previous file the map of existing rows is empty.  With one,
    the row kept for an OBJECTID is the last record of the file whose OBJECTID
    cell is that text, and there is none when no record carries it. *)
Theorem load_existing_keeps_last_record :
  Main.load_existing None = ∅ /\
  forall (rows : list dict) (oid : string),
    Main.load_existing (Some rows) !! oid
      = last (List.filter (has_key oid) rows).
Proof.
  split; [reflexivity|]. intros rows oid.
  rewrite load_existing_fold, load_rows_lookup, lookup_empty.
  now destruct (last _).
Qed.

(** X2.  The sync reuses the record of the previous file whatever its label:
    also a record whose RUE_REVERSE is empty or the sentinel is written back
    with its own longitude, latitude and label, and no request is sent for
    it, so a label the previous run did not resolve is not looked up again. *)
Theorem sync_reuses_unlabelled_row (rows : list dict) (row : dict)
    (projected : list val) (idx : nat) (feat : val)
    (cache : gmap string val) (w : world) (oid : string) :
  feature_objectid feat = Ok oid ->
  Main.load_existing (Some rows) !! oid = Some row ->
  row <> [] ->
  csv_row row = true ->
  exists e,
    Main.enrich srv (Main.load_existing (Some rows)) projected idx feat cache w
      = (Ret (e, cache), w) /\
    Main.lon e = VStr (cell_text row "LON_WGS84") /\
    Main.lat e = VStr (cell_text row "LAT_WGS84") /\
    Main.street_label e = VStr (cell_text row "RUE_REVERSE").
Proof.
  intros Hoid Hrow Hne Hcsv.
  destruct (enrich_existing srv _ projected idx feat cache w oid row
              Hoid Hrow Hne) as (a & g & He).
  rewrite !reuse_cell in He by assumption.
  eexists. split; [exact He|]. cbn [Main.lon Main.lat Main.street_label].
  auto.
Qed.

Lemma enrich_unprojected (existing_rows : gmap string dict)
    (projected : list val) (idx : nat) (feat : val)
    (cache : gmap string val) (w : world) (oid : string) :
  feature_objectid feat = Ok oid ->
  default [] (existing_rows !! oid) = [] ->
  length projected <= idx ->
  exists a g,
    Main.enrich srv existing_rows projected idx feat cache w
      = (Ret (Main.Enriched a g oid VNone VNone (VStr ""), cache), w).
Proof.
  unfold feature_objectid, Main.enrich. intros Hoid Hrow Hidx.
  destruct (py_get feat "attributes" (VDict [])) as [a|e] eqn:Ha;
    cbn [and_then] in Hoid; [|discriminate].
  destruct (py_get a "OBJECTID" (VStr "")) as [o|e] eqn:Ho;
    cbn [and_then] in Hoid; [|discriminate].
  inversion Hoid; subst oid.
  assert (Hg : exists g, py_get feat "geometry" (VDict []) = Ok g).
  { destruct feat; cbn in Ha; try discriminate. cbn. eauto. }
  destruct Hg as [g Hg].
  exists a, (py_or g (VDict [])).
  rewrite bind_lift_ok, Hg, bind_lift_ok, Ho, bind_lift_ok.
  cbv beta zeta. rewrite Hrow. cbn [truthy].
  apply Nat.ltb_ge in Hidx. rewrite Hidx. cbn [py_get].
  unfold dict_get_default. cbn [dict_get].
  rewrite !bind_lift_ok. unfold bind.
  rewrite sync_reverse_geocode_none by reflexivity. reflexivity.
Qed.

(** X3.  A feature with no record in the previous file and an index beyond the
    projected list is written with empty longitude, latitude and label, and
    no request is sent for it. *)
Theorem sync_feature_without_projection (existing_rows : gmap string dict)
    (projected : list val) (idx : nat) (feat : val)
    (cache : gmap string val) (w : world) (oid : string) :
  feature_objectid feat = Ok oid ->
  existing_rows !! oid = None ->
  length projected <= idx ->
  exists e,
    Main.enrich srv existing_rows projected idx feat cache w
      = (Ret (e, cache), w) /\
    forall record,
      Main.output_record e = Ok record ->
      drop 7 record = [VStr ""; VStr ""; VStr ""].
Proof.
  intros Hoid Hrow Hidx.
  destruct (enrich_unprojected existing_rows projected idx feat cache w oid
              Hoid) as (a & g & He); [now rewrite Hrow|assumption|].
  eexists. split; [exact He|]. intros record.
  unfold Main.output_record. cbn [Main.attrs Main.geom Main.objectid Main.lon
    Main.lat Main.street_label is_none].
  repeat match goal with
  | |- and_then ?r _ = _ -> _ => destruct r; cbn [and_then]; [|discriminate]
  end.
  intros H. inversion H. reflexivity.
Qed.

(** X5.  The sync script's [reverse_geocode] raises exactly when neither
    coordinate is [None] and the cache key cannot be formatted (a coordinate
    that is not a number); it then raises the error of the formatting, before
    any request, leaving the world as it was. *)
Theorem sync_reverse_geocode_raises_on_bad_key (lon lat : val)
    (cache : gmap string val) (w : world) (e : exn) :
  (fst (Main.reverse_geocode srv lon lat cache w) = Exc e <->
   (is_none lon || is_none lat = false /\ Main.cache_key lon lat = Raise e)) /\
  (fst (Main.reverse_geocode srv lon lat cache w) = Exc e ->
   snd (Main.reverse_geocode srv lon lat cache w) = w).
Proof.
  assert (Hiff : fst (Main.reverse_geocode srv lon lat cache w) = Exc e <->
    (is_none lon || is_none lat = false /\ Main.cache_key lon lat = Raise e));
  [|split; [exact Hiff|]; intros H; apply Hiff in H as [Hn Hk];
    now rewrite (sync_reverse_geocode_bad_key srv _ _ _ _ _ Hn Hk)].
  destruct (is_none lon || is_none lat) eqn:Hn.
  - rewrite sync_reverse_geocode_none by assumption. cbn.
    split; [discriminate|]. intros [H _]. discriminate.
  - destruct (Main.cache_key lon lat) as [key|e'] eqn:Hk.
    + destruct (cache !! key) as [l|] eqn:Hc.
      * rewrite (sync_reverse_geocode_hit srv _ _ _ _ _ _ Hk Hc). cbn.
        split; [discriminate|]. intros [_ H]. discriminate.
      * rewrite (sync_reverse_geocode_miss srv _ _ _ _ _ Hk Hc). cbn.
        split; [discriminate|]. intros [_ H]. discriminate.
    + rewrite (sync_reverse_geocode_bad_key srv _ _ _ _ _ Hn Hk). cbn.
      split; [intros H; inversion H; auto|]. intros [_ H]. now inversion H.
Qed.

End SyncRows.

Section SyncRun.
Context {Py : Python} (srv : server).

#[local] Existing Instances sends_reflexive sends_transitive
  keeps_file_reflexive keeps_file_transitive.

(** *** Stage by stage: what is sent and what happens to the file *)

Lemma fetch_loop_effect (R : relation world) `{!Reflexive R} `{!Transitive R}
    (fuel : nat) :
  (forall ev, is_fetch ev = true -> effect R (request srv ev)) ->
  forall (offset : nat) (acc : list val),
    effect R (Main.fetch_loop srv fuel offset acc).
Proof.
  intros Hreq. induction fuel as [|fuel IH]; intros offset acc.
  - intros w. reflexivity.
  - cbn [Main.fetch_loop]. apply effect_bind; [assumption|now apply Hreq|].
    intros data. apply effect_bind; [assumption|now apply effect_lift|].
    intros features. destruct (negb (truthy features)); [now apply effect_ret|].
    apply effect_bind; [assumption|now apply effect_lift|]. intros items.
    apply effect_bind; [assumption|now apply effect_lift|]. intros n.
    destruct (n <? Main.PAGE_SIZE); [now apply effect_ret|apply IH].
Qed.

Lemma project_points_effect (R : relation world) `{!Reflexive R}
    `{!Transitive R} (points : list val) :
  (forall ev, is_project ev = true -> effect R (request srv ev)) ->
  effect R (Main.project_points srv points).
Proof.
  intros Hreq. destruct points as [|p ps]; [now apply effect_ret|].
  apply effect_bind; [assumption|now apply Hreq|].
  intros data. now apply effect_lift.
Qed.

Lemma project_batches_effect (R : relation world) `{!Reflexive R}
    `{!Transitive R} (starts : list nat) :
  (forall ev, is_project ev = true -> effect R (request srv ev)) ->
  forall points projected : list val,
    effect R (Main.project_batches srv starts points projected).
Proof.
  intros Hreq. induction starts as [|i rest IH]; intros points projected.
  - now apply effect_ret.
  - cbn [Main.project_batches].
    apply effect_bind; [assumption|now apply project_points_effect|].
    intros geometries.
    apply effect_bind; [assumption|now apply effect_lift|]. intros items.
    apply IH.
Qed.

Lemma sync_reverse_geocode_effect (R : relation world) `{!Reflexive R}
    `{!Transitive R} (lon lat : val) (cache : gmap string val) :
  (forall ev, is_reverse ev = true -> effect R (request srv ev)) ->
  effect R (Main.reverse_geocode srv lon lat cache).
Proof.
  intros Hreq. unfold Main.reverse_geocode.
  destruct (is_none lon || is_none lat); [now apply effect_ret|].
  apply effect_bind; [assumption|now apply effect_lift|]. intros key.
  destruct (cache !! key); [now apply effect_ret|].
  apply effect_try_except; [assumption| |intros e; now apply effect_ret].
  apply effect_bind; [assumption|now apply Hreq|]. intros data.
  apply effect_bind; [assumption|now apply effect_lift|]. intros label.
  now apply effect_ret.
Qed.

Lemma enrich_effect (R : relation world) `{!Reflexive R} `{!Transitive R}
    (existing_rows : gmap string dict) (projected : list val) (idx : nat)
    (feat : val) (cache : gmap string val) :
  (forall ev, is_reverse ev = true -> effect R (request srv ev)) ->
  effect R (Main.enrich srv existing_rows projected idx feat cache).
Proof.
  intros Hreq. unfold Main.enrich.
  apply effect_bind; [assumption|now apply effect_lift|]. intros a.
  apply effect_bind; [assumption|now apply effect_lift|]. intros g.
  apply effect_bind; [assumption|now apply effect_lift|]. intros o.
  cbv zeta. destruct (truthy _); [now apply effect_ret|].
  apply effect_bind; [assumption|now apply effect_lift|]. intros x.
  apply effect_bind; [assumption|now apply effect_lift|]. intros y.
  apply effect_bind; [assumption|now apply sync_reverse_geocode_effect|].
  intros l. now apply effect_ret.
Qed.

Lemma write_features_sends (existing_rows : gmap string dict)
    (projected : list val) (features : list val) :
  forall (idx : nat) (cache : gmap string val),
    effect (sends is_reverse)
      (Main.write_features srv existing_rows projected idx features cache).
Proof.
  induction features as [|feat rest IH]; intros idx cache.
  - now apply effect_ret.
  - cbn [Main.write_features].
    apply effect_bind; [apply _| |].
    { apply enrich_effect; try apply _. intros ev Hev. now apply sends_request. }
    intros e. apply effect_bind; [apply _|now apply effect_lift|].
    intros record. apply effect_bind; [apply _|apply sends_writerow|].
    intros _. apply IH.
Qed.

Lemma sync_inputs_keeps_file (fuel : nat) :
  effect keeps_file (sync_inputs srv fuel).
Proof.
  unfold sync_inputs.
  apply effect_bind; [apply _| |].
  { apply fetch_loop_effect; try apply _. intros ev _. apply keeps_file_request. }
  intros feats. apply effect_bind; [apply _| |].
  { apply effect_for_each; try apply _. intros f. now apply effect_lift. }
  intros points. apply effect_bind; [apply _| |].
  { apply project_batches_effect; try apply _.
    intros ev _. apply keeps_file_request. }
  intros projected. now apply effect_ret.
Qed.

(** [main] is [sync_inputs] followed by the writing of the file. *)
Lemma main_split (fuel : nat) (posts_csv : option (list dict)) (w : world) :
  Main.main srv fuel posts_csv w =
    (inputs <- sync_inputs srv fuel ;;
     open_for_writing ;;;
     writerow Main.HEADER ;;;
     _ <- Main.write_features srv (Main.load_existing posts_csv)
            (snd inputs) 0 (fst inputs) ∅ ;;
     ret tt) w.
Proof.
  unfold Main.main, sync_inputs, bind.
  destruct (Main.fetch_loop srv fuel 0 [] w) as [[feats|e|] w1]; try reflexivity.
  destruct (for_each _ feats w1) as [[points|e|] w2]; try reflexivity.
  destruct (Main.project_batches srv _ points [] w2) as [[projected|e|] w3];
    reflexivity.
Qed.

(** X10.  When fetching, collecting the points or projecting raises, [main]
    raises the same exception and the output file is as it was: it is opened
    for writing only after these stages. *)
Theorem sync_failure_before_writing_keeps_file (fuel : nat)
    (posts_csv : option (list dict)) (w w1 : world) (e : exn) :
  sync_inputs srv fuel w = (Exc e, w1) ->
  Main.main srv fuel posts_csv w = (Exc e, w1) /\ written w1 = written w.
Proof.
  intros Hin. split.
  - rewrite main_split. unfold bind at 1. now rewrite Hin.
  - pose proof (sync_inputs_keeps_file fuel w) as Hk. now rewrite Hin in Hk.
Qed.

End SyncRun.

Section SyncFile.
Context {Py : Python} (srv : server).

#[local] Existing Instances sends_reflexive sends_transitive
  keeps_file_reflexive keeps_file_transitive.

Lemma enrich_objectid (existing_rows : gmap string dict) (projected : list val)
    (idx : nat) (feat : val) (cache cache' : gmap string val) (w w' : world)
    (e : Main.enriched) :
  Main.enrich srv existing_rows projected idx feat cache w = (Ret (e, cache'), w') ->
  feature_objectid feat = Ok (Main.objectid e).
Proof.
  unfold Main.enrich, feature_objectid. intros H.
  apply bind_ret_inv in H as (a & w1 & Ha & H).
  apply lift_ret_inv in Ha as [Ha _].
  apply bind_ret_inv in H as (g & w2 & Hg & H).
  apply bind_ret_inv in H as (o & w3 & Ho & H).
  apply lift_ret_inv in Ho as [Ho _].
  rewrite Ha. cbn [and_then]. rewrite Ho. cbn [and_then]. cbv zeta in H.
  destruct (truthy _) in H.
  - now inversion H.
  - apply bind_ret_inv in H as (x & w4 & _ & H).
    apply bind_ret_inv in H as (y & w5 & _ & H).
    apply bind_ret_inv in H as (l & w6 & _ & H). now inversion H.
Qed.

Lemma output_record_shape (e : Main.enriched) (record : list val) :
  Main.output_record e = Ok record ->
  length record = length Main.HEADER /\
  record !! 4 = Some (VStr (Main.objectid e)).
Proof.
  unfold Main.output_record.
  repeat match goal with
  | |- and_then ?r _ = _ -> _ => destruct r; cbn [and_then]; [|discriminate]
  end.
  intros H. inversion H. split; reflexivity.
Qed.

Lemma write_features_appends (existing_rows : gmap string dict)
    (projected : list val) (features : list val) :
  forall (idx : nat) (cache : gmap string val) (t : list event)
         (records : list (list val)) (o : outcome (gmap string val))
         (w' : world),
    Main.write_features srv existing_rows projected idx features cache
      (World t (Some records)) = (o, w') ->
    exists new,
      written w' = Some (records ++ new) /\
      Forall2 record_for (take (length new) features) new /\
      match o with
      | Ret _ => length new = length features
      | _ => length new < length features
      end.
Proof.
  induction features as [|feat rest IH]; intros idx cache t records o w' Hrun.
  - inversion Hrun; subst. exists []. cbn. rewrite app_nil_r.
    repeat split. constructor.
  - cbn [Main.write_features] in Hrun. unfold bind at 1 in Hrun.
    pose proof (enrich_effect srv keeps_file existing_rows projected idx feat
                  cache (fun ev _ => keeps_file_request srv ev)
                  (World t (Some records))) as Hfile.
    destruct (Main.enrich srv existing_rows projected idx feat cache
                (World t (Some records))) as [[[e c]|x|] w1] eqn:He;
      cbn [snd fst] in *; unfold keeps_file in Hfile; cbn [written] in Hfile;
      try (inversion Hrun; subst; exists []; rewrite app_nil_r; cbn;
           repeat split; [assumption|constructor|lia]).
    unfold bind at 1 in Hrun.
    destruct (Main.output_record e) as [record|x] eqn:Hrec;
      cbn [lift ret raise] in Hrun;
      try (inversion Hrun; subst; exists []; rewrite app_nil_r; cbn;
           repeat split; [assumption|constructor|lia]).
    unfold bind at 1, writerow at 1 in Hrun. cbn [written trace] in Hrun.
    rewrite Hfile in Hrun.
    destruct (IH (S idx) c (trace w1) (records ++ [record]) o w' Hrun)
      as (new & Hw & Hrecs & Hlen).
    exists (record :: new). rewrite <- app_assoc in Hw. cbn [app] in Hw.
    split; [exact Hw|]. split.
    + cbn [length take]. constructor; [|exact Hrecs].
      destruct (output_record_shape e record Hrec) as [Hl H4].
      split; [exact Hl|]. exists (Main.objectid e).
      split; [|exact H4]. eapply enrich_objectid; eauto.
    + cbn [length]. destruct o; lia.
Qed.

(** X12.  When [main] returns, the output file is the header followed by one
    record per fetched feature, in fetch order, each with as many cells as
    the header and the feature's OBJECTID text in the fifth. *)
Theorem sync_writes_one_record_per_feature (fuel : nat)
    (posts_csv : option (list dict)) (w w' : world) :
  Main.main srv fuel posts_csv w = (Ret tt, w') ->
  exists (features projected : list val) (w1 : world)
         (records : list (list val)),
    sync_inputs srv fuel w = (Ret (features, projected), w1) /\
    written w' = Some (Main.HEADER :: records) /\
    Forall2 record_for features records.
Proof.
  rewrite main_split. intros H.
  apply bind_ret_inv in H as ([features projected] & w1 & Hin & H).
  unfold bind at 1, open_for_writing at 1 in H.
  unfold bind at 1, writerow at 1 in H. cbn [trace written app fst snd] in H.
  unfold bind at 1 in H.
  destruct (Main.write_features srv _ projected 0 features ∅ _)
    as [[c|x|] w2] eqn:Hloop; try discriminate.
  inversion H; subst w'.
  destruct (write_features_appends _ _ _ _ _ _ _ _ _ Hloop)
    as (new & Hw & Hrecs & Hlen).
  exists features, projected, w1, new. split; [exact Hin|].
  split; [exact Hw|]. rewrite Hlen, take_ge in Hrecs by lia. exact Hrecs.
Qed.

(** X11.  When the inputs were gathered and [main] then raises, the output file
    has been truncated: it holds the header and the records of the features
    handled before the failure, fewer than the features fetched. *)
Theorem sync_failure_while_writing_truncates (fuel : nat)
    (posts_csv : option (list dict)) (w w1 w' : world)
    (features projected : list val) (e : exn) :
  sync_inputs srv fuel w = (Ret (features, projected), w1) ->
  Main.main srv fuel posts_csv w = (Exc e, w') ->
  exists records,
    written w' = Some (Main.HEADER :: records) /\
    Forall2 record_for (take (length records) features) records /\
    length records < length features.
Proof.
  rewrite main_split. intros Hin H. unfold bind at 1 in H. rewrite Hin in H.
  unfold bind at 1, open_for_writing at 1 in H.
  unfold bind at 1, writerow at 1 in H. cbn [trace written app fst snd] in H.
  unfold bind at 1 in H.
  destruct (Main.write_features srv _ projected 0 features ∅ _)
    as [[c|x|] w2] eqn:Hloop; try discriminate.
  inversion H; subst.
  destruct (write_features_appends _ _ _ _ _ _ _ _ _ Hloop)
    as (new & Hw & Hrecs & Hlen).
  exists new. auto.
Qed.

(** X13.  When the first page is empty, [main] returns after that single
    request and the output file holds the header alone, whatever the previous
    file held. *)
Theorem sync_empty_service_leaves_header_only (fuel : nat)
    (posts_csv : option (list dict)) (w : world) :
  page_of (srv (trace w) (FetchPage 0 Main.PAGE_SIZE)) = Ok [] ->
  Main.main srv (S fuel) posts_csv w =
    (Ret tt,
     World (trace w ++ [FetchPage 0 Main.PAGE_SIZE]) (Some [Main.HEADER])).
Proof.
  intros Hpage. unfold Main.main. unfold bind at 1.
  rewrite fetch_loop_step. cbv zeta. rewrite Hpage. reflexivity.
Qed.

(** X7.  If the service answers every page request with at least 500 features,
    the fetch loop never returns: with any fuel it runs out of fuel, having
    sent one page request per unit of fuel and nothing else. *)
Theorem fetch_loop_never_stops_on_full_pages (fuel : nat) :
  always_full srv ->
  forall (offset : nat) (acc : list val) (w : world),
    fst (Main.fetch_loop srv fuel offset acc w) = OutOfFuel /\
    exists evs,
      trace (snd (Main.fetch_loop srv fuel offset acc w)) = trace w ++ evs /\
      length evs = fuel /\
      forallb is_fetch evs = true.
Proof.
  intros Hfull. induction fuel as [|fuel IH]; intros offset acc w.
  - split; [reflexivity|]. exists []. cbn. now rewrite app_nil_r.
  - rewrite fetch_loop_step. cbv zeta.
    destruct (Hfull (trace w) offset) as (page & -> & Hlen).
    apply Nat.ltb_ge in Hlen. rewrite Hlen.
    destruct (IH (offset + length page) (acc ++ page)
                (sent w (FetchPage offset Main.PAGE_SIZE)))
      as (Hout & evs & Ht & Hn & Hf).
    split; [exact Hout|].
    exists (FetchPage offset Main.PAGE_SIZE :: evs).
    rewrite Ht. cbn [sent trace length forallb is_fetch andb].
    rewrite <- app_assoc. cbn [app]. auto.
Qed.

End SyncFile.

Section SyncPhases.
Context {Py : Python} (srv : server).

#[local] Existing Instances sends_reflexive sends_transitive
  keeps_file_reflexive keeps_file_transitive.

Lemma phases_nil (tests : list (event -> bool)) : phases tests [].
Proof.
  induction tests as [|P rest IH]; [reflexivity|]. now exists [], [].
Qed.

Lemma phases_first (P : event -> bool) (rest : list (event -> bool))
    (evs : list event) :
  forallb P evs = true -> phases (P :: rest) evs.
Proof.
  intros H. exists evs, []. rewrite app_nil_r.
  split; [reflexivity|]. split; [assumption|apply phases_nil].
Qed.

Lemma phases_later (P : event -> bool) (rest : list (event -> bool))
    (evs : list event) :
  phases rest evs -> phases (P :: rest) evs.
Proof. intros H. now exists [], evs. Qed.

Lemma phases_prepend (P : event -> bool) (rest : list (event -> bool))
    (a evs : list event) :
  forallb P a = true -> phases (P :: rest) evs -> phases (P :: rest) (a ++ evs).
Proof.
  intros Ha (now & later & -> & Hnow & Hlater).
  exists (a ++ now), later. rewrite app_assoc, forallb_app, Ha, Hnow. auto.
Qed.

Lemma phase_bind {A B : Type} (P : event -> bool)
    (rest : list (event -> bool)) (m : M A) (k : A -> M B) :
  effect (sends P) m ->
  (forall a, effect (sends_in_phases (P :: rest)) (k a)) ->
  effect (sends_in_phases (P :: rest)) (bind m k).
Proof.
  intros Hm Hk w. destruct (Hm w) as (a & Ha & HP). unfold bind.
  destruct (m w) as [[x|e|] w1]; cbn [snd] in *;
    try (exists a; split; [assumption|now apply phases_first]).
  destruct (Hk x w1) as (evs & Hevs & Hph).
  exists (a ++ evs). rewrite Hevs, Ha, <- app_assoc.
  split; [reflexivity|now apply phases_prepend].
Qed.

Lemma phase_next {A : Type} (P : event -> bool)
    (rest : list (event -> bool)) (m : M A) :
  effect (sends_in_phases rest) m -> effect (sends_in_phases (P :: rest)) m.
Proof.
  intros Hm w. destruct (Hm w) as (evs & Hevs & Hph).
  exists evs. split; [assumption|now apply phases_later].
Qed.

Lemma phase_last {A : Type} (P : event -> bool) (m : M A) :
  effect (sends P) m -> effect (sends_in_phases [P]) m.
Proof.
  intros Hm w. destruct (Hm w) as (evs & Hevs & HP).
  exists evs. split; [assumption|now apply phases_first].
Qed.

Lemma main_in_phases (fuel : nat) (posts_csv : option (list dict)) :
  effect (sends_in_phases [is_fetch; is_project; is_reverse])
    (Main.main srv fuel posts_csv).
Proof.
  unfold Main.main. cbv zeta. apply phase_bind.
  { apply fetch_loop_effect; try apply _. intros ev Hev. now apply sends_request. }
  intros features. apply phase_next, phase_bind.
  { apply effect_for_each; try apply _. intros f. apply effect_lift. apply _. }
  intros points. apply phase_bind.
  { apply project_batches_effect; try apply _.
    intros ev Hev. now apply sends_request. }
  intros projected. apply phase_next, phase_last.
  apply effect_bind; [apply _|apply sends_open|]. intros _.
  apply effect_bind; [apply _|apply sends_writerow|]. intros _.
  apply effect_bind; [apply _|apply write_features_sends|]. intros _.
  apply effect_ret. apply _.
Qed.

(** X14.  Whatever its outcome, a sync run sends page requests, then projection
    requests, then reverse-geocode requests, and nothing else: it never
    sleeps and never goes back to an earlier stage. *)
Theorem sync_requests_come_in_stages (fuel : nat)
    (posts_csv : option (list dict)) (w : world) :
  exists fetches projections lookups,
    trace (snd (Main.main srv fuel posts_csv w))
      = trace w ++ fetches ++ projections ++ lookups /\
    forallb is_fetch fetches = true /\
    forallb is_project projections = true /\
    forallb is_reverse lookups = true.
Proof.
  destruct (main_in_phases fuel posts_csv w)
    as (evs & Hevs & a & l1 & -> & Ha & b & l2 & -> & Hb & c & l3 & -> & Hc & ->).
  exists a, b, c. rewrite app_nil_r in Hevs. auto.
Qed.

(** *** One request per cache entry *)

Lemma reverse_requests_app (t evs : list event) :
  reverse_requests (t ++ evs) = reverse_requests t + reverse_requests evs.
Proof. unfold reverse_requests. now rewrite List.filter_app, length_app. Qed.




End SyncPhases.

Section RepairRun.
Context {Py : Python} (srv : server).

Lemma within_bind {A B : Type} (a b : nat) (m : M A) (k : A -> M B) :
  effect (within a) m -> (forall x, effect (within b) (k x)) ->
  effect (within (a + b)) (bind m k).
Proof.
  intros Hm Hk w. specialize (Hm w). unfold bind, within in *.
  destruct (m w) as [[x|e|] w1]; cbn [snd] in *; try lia.
  specialize (Hk x w1). unfold within in Hk. lia.
Qed.

Lemma within_mono {A : Type} (a b : nat) (m : M A) :
  a <= b -> effect (within a) m -> effect (within b) m.
Proof. intros Hab Hm w. specialize (Hm w). unfold within in *. lia. Qed.

Lemma within_same {A : Type} (m : M A) :
  (forall w, trace (snd (m w)) = trace w) -> effect (within 0) m.
Proof. intros H w. unfold within. rewrite H. lia. Qed.

Lemma within_lift {A : Type} (r : result A) : effect (within 0) (lift r).
Proof. apply within_same. now destruct r. Qed.

Lemma within_sleep (seconds : Q) : effect (within 0) (sleep seconds).
Proof.
  intros w. unfold within, sleep. cbn [snd trace].
  rewrite reverse_requests_app. cbn. lia.
Qed.

Lemma repair_reverse_geocode_within (lon lat : number) :
  effect (within 3) (FillMissingRues.reverse_geocode srv lon lat).
Proof.
  intros w. unfold within. rewrite repair_reverse_geocode_value. cbv zeta.
  destruct (repair_attempt srv (trace w) lon lat);
    [|destruct (repair_attempt srv (trace w ++ _) lon lat)];
    cbn [snd trace]; rewrite !reverse_requests_app; cbn; lia.
Qed.

Lemma fill_row_within (row : dict) :
  effect (within 3) (FillMissingRues.fill_row srv row).
Proof.
  unfold FillMissingRues.fill_row.
  apply (within_bind 0 3); [apply within_lift|]. intros rue. cbv zeta.
  destruct (truthy (VStr rue) && _).
  { apply (within_mono 0); [lia|]. apply within_same; reflexivity. }
  apply (within_bind 0 3); [apply within_lift|]. intros [[lon_f|] [lat_f|]];
    try (apply (within_mono 0); [lia|]; apply within_same; reflexivity).
  apply (within_bind 3 0); [apply repair_reverse_geocode_within|]. intros label.
  apply (within_bind 0 0); [apply within_sleep|]. intros _.
  apply within_same; reflexivity.
Qed.

Lemma fill_rows_within (rows : list dict) :
  effect (within (3 * length rows)) (for_each (FillMissingRues.fill_row srv) rows).
Proof.
  induction rows as [|row rows IH]; cbn [for_each].
  - apply within_same; reflexivity.
  - apply (within_mono (3 + (3 * length rows + 0))); [cbn [length]; lia|].
    apply within_bind; [apply fill_row_within|]. intros y.
    apply within_bind; [apply IH|]. intros ys. apply within_same; reflexivity.
Qed.

Lemma write_back_trace (rows : list dict) (w : world) :
  trace (snd (FillMissingRues.write_back rows w)) = trace w.
Proof.
  assert (H : effect (sends (fun _ => false)) (FillMissingRues.write_back rows)).
  { unfold FillMissingRues.write_back. cbv zeta.
    apply effect_bind; [apply sends_transitive|apply sends_open|]. intros _.
    apply effect_bind; [apply sends_transitive|apply sends_writerow|]. intros _.
    apply effect_bind; [apply sends_transitive| |].
    - apply effect_for_each;
        [apply sends_reflexive|apply sends_transitive|]. intros r.
      apply effect_bind; [apply sends_transitive| |].
      + apply effect_lift, sends_reflexive.
      + intros record. apply sends_writerow.
    - intros _. apply effect_ret, sends_reflexive. }
  destruct (H w) as (evs & Ht & Hf).
  destruct evs as [|ev evs]; [now rewrite app_nil_r in Ht|discriminate].
Qed.

(** X17.  Whatever its outcome, the repair sends at most MAX_RETRIES
    reverse-geocode requests per row of the file. *)
Theorem repair_request_budget (rows : list dict) (w : world) :
  reverse_requests (trace (snd (FillMissingRues.main srv (Some rows) w)))
  <= reverse_requests (trace w) + FillMissingRues.MAX_RETRIES * length rows.
Proof.
  unfold FillMissingRues.MAX_RETRIES.
  destruct rows as [|first others]; [cbn; lia|].
  assert (H : effect (within (3 * length (first :: others) + 0))
                (rows' <- for_each (FillMissingRues.fill_row srv) (first :: others) ;;
                 FillMissingRues.write_back rows')).
  { apply within_bind; [apply fill_rows_within|]. intros rows'.
    apply within_same. apply write_back_trace. }
  specialize (H w). unfold within in H.
  change (FillMissingRues.main srv (Some (first :: others)) w)
    with ((rows' <- for_each (FillMissingRues.fill_row srv) (first :: others) ;;
           FillMissingRues.write_back rows') w).
  lia.
Qed.

(** *** What the loop may change *)

Lemma dict_get_set_other (d : dict) (k k' : string) (v : val) :
  k' <> k -> dict_get (dict_set d k v) k' = dict_get d k'.
Proof.
  intros Hne. induction d as [|[k0 v0] d IH]; cbn.
  - destruct (String.eqb_spec k k'); [congruence|reflexivity].
  - destruct (String.eqb_spec k0 k) as [->|Hk]; cbn.
    + destruct (String.eqb_spec k k'); [congruence|reflexivity].
    + now rewrite IH.
Qed.

Lemma fill_row_result (row row' : dict) (w w' : world) :
  FillMissingRues.fill_row srv row w = (Ret row', w') ->
  row' = row \/
  exists label, truthy label = true /\ row' = dict_set row "RUE_REVERSE" label.
Proof.
  unfold FillMissingRues.fill_row. intros H.
  apply bind_ret_inv in H as (rue & w1 & _ & H). cbv zeta in H.
  destruct (truthy (VStr rue) && _) in H; [inversion H; auto|].
  apply bind_ret_inv in H as ([[lon_f|] [lat_f|]] & w2 & _ & H);
    try (inversion H; auto).
  apply bind_ret_inv in H as (label & w3 & _ & H).
  apply bind_ret_inv in H as (u & w4 & _ & H). inversion H; subst.
  destruct (truthy label) eqn:Ht; eauto.
Qed.

(** X15.  When the loop of the repair returns, each row differs from the row
    read at most in RUE_REVERSE, and a RUE_REVERSE that changed holds a
    truthy label: the repair never blanks a label nor touches another
    column. *)
Theorem repair_changes_only_the_label (rows : list dict) :
  forall (rows' : list dict) (w w' : world),
    for_each (FillMissingRues.fill_row srv) rows w = (Ret rows', w') ->
    Forall2 only_label_filled rows rows'.
Proof.
  induction rows as [|row rows IH]; intros rows' w w' H.
  - inversion H. constructor.
  - cbn [for_each] in H.
    apply bind_ret_inv in H as (row' & w1 & Hrow & H).
    apply bind_ret_inv in H as (rest' & w2 & Hrest & H).
    inversion H; subst. constructor; [|eapply IH; eauto].
    destruct (fill_row_result _ _ _ _ Hrow) as [->|(label & Ht & ->)].
    + split; auto.
    + split.
      * intros k Hk. now apply dict_get_set_other.
      * right. exists label. split; [assumption|apply dict_get_set].
Qed.

Lemma fill_rows_left_alone (header : list string) (rows : list dict) :
  forall w : world,
    forallb (record_of header) rows = true ->
    forallb left_alone rows = true ->
    for_each (FillMissingRues.fill_row srv) rows w = (Ret rows, w).
Proof.
  induction rows as [|row rows IH]; intros w Hrec Hleft; [reflexivity|].
  cbn [forallb] in Hrec, Hleft.
  apply andb_prop in Hrec as [Hrow Hrec]. apply andb_prop in Hleft as [Hl Hleft].
  destruct (fill_row_csv srv header row w Hrow) as (row' & w' & Hfill & _ & _ & Hsame).
  destruct (Hsame Hl) as [-> ->].
  cbn [for_each]. unfold bind at 1. rewrite Hfill.
  unfold bind at 1. now rewrite IH.
Qed.

(** X16.  On a well-formed file in which every row has a label or lacks
    readable coordinates, the repair sends no request, does not sleep, and
    rewrites the file with the cells it read. *)
Theorem repair_of_a_settled_file_is_silent (first : dict)
    (others : list dict) (w : world) :
  well_formed (first :: others) = true ->
  forallb left_alone (first :: others) = true ->
  FillMissingRues.main srv (Some (first :: others)) w =
    (Ret tt,
     World (trace w)
       (Some (map VStr (dict_keys first) :: map (map snd) (first :: others)))).
Proof.
  unfold well_formed. intros Hwf Hleft. apply andb_prop in Hwf as [Hd Hall].
  unfold FillMissingRues.main. unfold bind at 1.
  rewrite (fill_rows_left_alone (dict_keys first) _ w Hall Hleft).
  unfold FillMissingRues.write_back. cbn [head default].
  unfold bind at 1, open_for_writing at 1.
  unfold bind at 1, writerow at 1. cbn [trace written app].
  unfold bind at 1. rewrite writerows_own_header; [reflexivity|assumption|].
  apply List.Forall_forall. intros row Hrow.
  rewrite forallb_forall in Hall. specialize (Hall row Hrow).
  unfold record_of in Hall.
  apply andb_prop in Hall as [Hall _]. apply andb_prop in Hall as [Hk _].
  now apply same_keys_eq.
Qed.

End RepairRun.

Section ProjectionAnswers.
Context {Py : Python} (srv : server).

#[local] Existing Instances sends_reflexive sends_transitive.

Lemma project_batches_step (i : nat) (rest : list nat)
    (points projected : list val) (w : world) :
  i < length points ->
  Main.project_batches srv (i :: rest) points projected w =
    let batch := py_slice points i (i + Main.batch_size) in
    match answer_of srv (trace w) batch with
    | Ok items =>
        Main.project_batches srv rest points (projected ++ items)
          (sent w (Project batch))
    | Raise e => (Exc e, sent w (Project batch))
    end.
Proof.
  intros Hi. cbn [Main.project_batches]. cbv zeta.
  assert (Hne : py_slice points i (i + Main.batch_size) <> []).
  { rewrite py_slice_step. intros Hnil.
    apply (f_equal (@length val)) in Hnil.
    rewrite length_take, length_drop in Hnil.
    unfold Main.batch_size in Hnil. cbn [length] in Hnil. lia. }
  destruct (py_slice points i (i + Main.batch_size)) as [|p ps] eqn:Hs;
    [congruence|].
  unfold bind at 1. unfold Main.project_points, answer_of, sent.
  unfold bind at 1, request.
  destruct (srv (trace w) (Project (p :: ps))) as [data|e]; cbn [and_then];
    [|reflexivity].
  destruct (py_get data "geometries" (VList [])) as [g|e]; cbn [lift ret raise and_then];
    [|reflexivity].
  unfold bind at 1.
  destruct (py_iter g) as [items|e]; reflexivity.
Qed.

Lemma project_batches_complete (points : list val) (starts : list nat) :
  Forall (fun i => i < length points) starts ->
  forall (answers : list (list val)) (projected : list val) (w : world),
    answered srv (trace w)
      (map (fun i => py_slice points i (i + Main.batch_size)) starts) answers ->
    Main.project_batches srv starts points projected w =
      (Ret (projected ++ concat answers),
       World
         (trace w ++
          map Project
            (map (fun i => py_slice points i (i + Main.batch_size)) starts))
         (written w)).
Proof.
  induction 1 as [|i rest Hi _ IH]; intros answers projected w Hans.
  - destruct answers; [|destruct Hans]. cbn. rewrite !app_nil_r. now destruct w.
  - destruct answers as [|answer answers]; [destruct Hans|].
    destruct Hans as [Ha Hrest].
    rewrite project_batches_step by assumption. cbv zeta. rewrite Ha.
    rewrite (IH answers); [|exact Hrest].
    cbn [sent trace written map concat]. now rewrite <- !app_assoc.
Qed.

Lemma project_batches_sound (points : list val) (starts : list nat) :
  Forall (fun i => i < length points) starts ->
  forall (projected : list val) (w : world) (out : list val) (w' : world),
    Main.project_batches srv starts points projected w = (Ret out, w') ->
    exists answers,
      answered srv (trace w)
        (map (fun i => py_slice points i (i + Main.batch_size)) starts) answers /\
      out = projected ++ concat answers.
Proof.
  induction 1 as [|i rest Hi _ IH]; intros projected w out w' Hrun.
  - inversion Hrun; subst. exists []. cbn. now rewrite app_nil_r.
  - rewrite project_batches_step in Hrun by assumption. cbv zeta in Hrun.
    destruct (answer_of srv (trace w) _) as [items|e] eqn:Ha; [|discriminate].
    apply IH in Hrun as (answers & Hans & ->).
    exists (items :: answers). cbn [map answered concat].
    split; [split; assumption|]. now rewrite <- app_assoc.
Qed.

(** X8.  Whatever the projection endpoint answers, the projected list the
    stage returns is the concatenation, in batch order, of the geometries of
    its answers, with no check of their number; conversely such answers make
    the stage return that concatenation after one request per batch. *)
Theorem projection_concatenates_answers (points : list val) (w : world) :
  let starts := py_range 0 (length points) Main.batch_size in
  (forall (projected : list val) (w' : world),
     Main.project_batches srv starts points [] w = (Ret projected, w') ->
     exists answers,
       answered srv (trace w) (batches points) answers /\
       projected = concat answers) /\
  (forall answers : list (list val),
     answered srv (trace w) (batches points) answers ->
     Main.project_batches srv starts points [] w =
       (Ret (concat answers),
        World (trace w ++ map Project (batches points)) (written w))).
Proof.
  cbv zeta.
  assert (Hb : Forall (fun i => i < length points)
                 (py_range 0 (length points) Main.batch_size)).
  { apply range_in_bounds. unfold Main.batch_size. lia. }
  split.
  - intros projected w' Hrun.
    destruct (project_batches_sound points _ Hb [] w projected w' Hrun)
      as (answers & Hans & ->).
    now exists answers.
  - intros answers Hans.
    now rewrite (project_batches_complete points _ Hb answers [] w Hans).
Qed.

(** *** Features without a readable geometry *)

Lemma feature_point_readable (feat : val) :
  if has_readable_geometry feat
  then exists p, Main.feature_point feat = Ok p
  else Main.feature_point feat = Raise AttributeError.
Proof.
  unfold has_readable_geometry, Main.feature_point.
  destruct feat as [| | | | |f]; try reflexivity.
  cbn [py_get and_then]. unfold dict_get_default.
  destruct (dict_get f "geometry") as [[| | | | |g]|]; cbn [py_get and_then];
    eauto.
Qed.

Lemma points_stage_fails (features : list val) (w : world) :
  forallb has_readable_geometry features = false ->
  for_each (fun f => lift (Main.feature_point f)) features w
    = (Exc AttributeError, w).
Proof.
  induction features as [|feat rest IH]; cbn [forallb for_each]; [discriminate|].
  pose proof (feature_point_readable feat) as Hf.
  destruct (has_readable_geometry feat).
  - destruct Hf as [p ->]. cbn [andb]. intros Hrest.
    rewrite bind_lift_ok. unfold bind. now rewrite IH.
  - intros _. now rewrite Hf.
Qed.

(** X9.  If a fetched feature is not a dict, or its geometry is present and is
    not a dict (null included), the sync raises [AttributeError] while it
    collects the points: after the page requests, before any projection
    request, with the output file untouched. *)
Theorem sync_unreadable_geometry_aborts (fuel : nat)
    (posts_csv : option (list dict)) (w w1 : world) (features : list val) :
  Main.fetch_loop srv fuel 0 [] w = (Ret features, w1) ->
  forallb has_readable_geometry features = false ->
  Main.main srv fuel posts_csv w = (Exc AttributeError, w1) /\
  written w1 = written w /\
  exists fetches,
    trace w1 = trace w ++ fetches /\ forallb is_fetch fetches = true.
Proof.
  intros Hfetch Hbad.
  assert (Hin : sync_inputs srv fuel w = (Exc AttributeError, w1)).
  { unfold sync_inputs. unfold bind at 1. rewrite Hfetch.
    unfold bind at 1. now rewrite points_stage_fails. }
  split; [|split].
  - rewrite main_split. unfold bind at 1. now rewrite Hin.
  - pose proof (sync_inputs_keeps_file srv fuel w) as Hk. now rewrite Hin in Hk.
  - pose proof (fetch_loop_effect srv (sends is_fetch) fuel
                  (fun ev Hev => sends_request is_fetch srv ev Hev) 0 [] w) as Hs.
    now rewrite Hfetch in Hs.
Qed.

End ProjectionAnswers.

Section NewAndBroken.
Context {Py : Python} (srv : server).


(** X18.  A record whose RUE_REVERSE cell is [None] (a record shorter than the
    header) makes the repair raise [AttributeError] when the loop reaches it:
    the lookups of the rows before it have been made, and the file is not
    rewritten. *)
Theorem repair_short_record_aborts (header : list string)
    (before after : list dict) (bad : dict) (w : world) :
  forallb (record_of header) before = true ->
  dict_get bad "RUE_REVERSE" = Some VNone ->
  exists w',
    FillMissingRues.main srv (Some (before ++ bad :: after)) w
      = (Exc AttributeError, w') /\
    written w' = written w /\
    snd (for_each (FillMissingRues.fill_row srv) before w) = w'.
Proof.
  intros Hbefore Hbad.
  destruct (fill_rows_csv srv header before w Hbefore)
    as (rows' & w' & Hloop & Hw & _ & _).
  exists w'.
  assert (Hfill : FillMissingRues.fill_row srv bad w' = (Exc AttributeError, w')).
  { unfold FillMissingRues.fill_row.
    unfold dict_get_default. now rewrite Hbad. }
  assert (Hall : for_each (FillMissingRues.fill_row srv) (before ++ bad :: after) w
                 = (Exc AttributeError, w')).
  { clear Hbefore Hw. revert w rows' Hloop.
    induction before as [|row before IH]; intros w rows' Hloop.
    - inversion Hloop; subst. cbn [app for_each]. unfold bind. now rewrite Hfill.
    - cbn [app for_each] in *.
      unfold bind at 1 in Hloop. unfold bind at 1.
      destruct (FillMissingRues.fill_row srv row w) as [[r| |] w1]; try discriminate.
      unfold bind at 1 in Hloop. unfold bind at 1.
      destruct (for_each (FillMissingRues.fill_row srv) before w1)
        as [[rs| |] w2] eqn:Hrest; try discriminate.
      inversion Hloop; subst. now rewrite (IH w1 rs Hrest). }
  split; [|split; [exact Hw|now rewrite Hloop]].
  unfold FillMissingRues.main.
  destruct (before ++ bad :: after) as [|r rs] eqn:Hrows.
  - now destruct before.
  - unfold bind. now rewrite Hall.
Qed.

End NewAndBroken.

Section MergeRun.
Context {Py : Python} (srv : server).

#[local] Existing Instances sends_reflexive sends_transitive
  keeps_file_reflexive keeps_file_transitive.

(** The enriched record of a feature with a previous record depends on the
    feature and on that record only. *)
Lemma enrich_existing_any (feat : val) (oid : string) :
  feature_objectid feat = Ok oid ->
  exists a g,
    forall (existing_rows : gmap string dict) (row : dict)
           (projected : list val) (idx : nat) (cache : gmap string val)
           (w : world),
      existing_rows !! oid = Some row ->
      row <> [] ->
      Main.enrich srv existing_rows projected idx feat cache w =
        (Ret (Main.Enriched a g oid
                (py_or (dict_get_default row "LON_WGS84" VNone) (VStr ""))
                (py_or (dict_get_default row "LAT_WGS84" VNone) (VStr ""))
                (py_or (dict_get_default row "RUE_REVERSE" VNone) (VStr "")),
              cache), w).
Proof.
  unfold feature_objectid. intros Hoid.
  destruct (py_get feat "attributes" (VDict [])) as [a|e] eqn:Ha;
    cbn [and_then] in Hoid; [|discriminate].
  destruct (py_get a "OBJECTID" (VStr "")) as [o|e] eqn:Ho;
    cbn [and_then] in Hoid; [|discriminate].
  inversion Hoid; subst oid.
  assert (Hg : exists g, py_get feat "geometry" (VDict []) = Ok g).
  { destruct feat; cbn in Ha; try discriminate. cbn. eauto. }
  destruct Hg as [g Hg].
  exists a, (py_or g (VDict [])).
  intros existing_rows row projected idx cache w Hrow Hne.
  unfold Main.enrich.
  rewrite Ha, bind_lift_ok, Hg, bind_lift_ok, Ho, bind_lift_ok.
  cbv beta zeta. rewrite Hrow. cbn [default].
  destruct row as [|kv row']; [congruence|]. reflexivity.
Qed.

(** What a stage that only reads leaves behind. *)
Lemma for_each_lift {A B : Type} (f : A -> result B) (l : list A) :
  forall (ys : list B) (w w' : world),
    for_each (fun x => lift (f x)) l w = (Ret ys, w') ->
    w' = w /\ Forall2 (fun x y => f x = Ok y) l ys.
Proof.
  induction l as [|x l IH]; intros ys w w' H.
  - inversion H; subst. split; [reflexivity|constructor].
  - cbn [for_each] in H.
    apply bind_ret_inv in H as (y & w1 & Hy & H).
    apply lift_ret_inv in Hy as [Hy ->].
    apply bind_ret_inv in H as (ys' & w2 & Hys & H).
    apply IH in Hys as [-> Hall]. inversion H; subst.
    split; [reflexivity|]. now constructor.
Qed.

(** The requests of the stages before the file is opened: the pages, then
    every batch of the points of the features. *)
Lemma sync_inputs_trace (fuel : nat) (w w1 : world)
    (features projected : list val) :
  sync_inputs srv fuel w = (Ret (features, projected), w1) ->
  exists points fetches,
    Forall2 (fun f p => Main.feature_point f = Ok p) features points /\
    forallb is_fetch fetches = true /\
    trace w1 = trace w ++ fetches ++ map Project (batches points).
Proof.
  unfold sync_inputs. intros H.
  apply bind_ret_inv in H as (feats & wa & Hfetch & H).
  apply bind_ret_inv in H as (points & wb & Hpoints & H).
  apply bind_ret_inv in H as (proj & wc & Hproj & H).
  inversion H; subst feats proj wc. clear H.
  apply for_each_lift in Hpoints as [-> Hpoints].
  pose proof (fetch_loop_effect srv (sends is_fetch) fuel
                (fun ev Hev => sends_request is_fetch srv ev Hev) 0 [] w)
    as (fetches & Htrace & Hfetches).
  rewrite Hfetch in Htrace. cbn [snd] in Htrace.
  assert (Hstarts : Forall (fun i => i < length points)
                      (py_range 0 (length points) Main.batch_size))
    by (apply range_in_bounds; unfold Main.batch_size; lia).
  pose proof (project_batches_sound srv points _ Hstarts _ _ _ _ Hproj)
    as (answers & Hans & _).
  rewrite (project_batches_complete srv points _ Hstarts answers [] wa Hans)
    in Hproj.
  inversion Hproj; subst w1. cbn [trace].
  exists points, fetches. split; [exact Hpoints|]. split; [exact Hfetches|].
  rewrite Htrace, <- app_assoc. reflexivity.
Qed.

(** After the stages before it, [main] sends reverse-geocode requests
    only. *)
Lemma sync_loop_sends (posts_csv : option (list dict))
    (features projected : list val) :
  effect (sends is_reverse)
    (open_for_writing ;;;
     writerow Main.HEADER ;;;
     _ <- Main.write_features srv (Main.load_existing posts_csv)
            projected 0 features ∅ ;;
     ret tt).
Proof.
  apply effect_bind; [apply _|apply sends_open|]. intros _.
  apply effect_bind; [apply _|apply sends_writerow|]. intros _.
  apply effect_bind; [apply _|apply write_features_sends|]. intros _.
  now apply effect_ret.
Qed.

(** The record the loop writes for a feature that a previous record
    settles, seen in the file a returning loop leaves. *)
Lemma write_features_settled (existing_rows : gmap string dict)
    (projected : list val) (feat : val) (kept : list val) :
  (forall (idx : nat) (cache : gmap string val) (w : world),
     exists e,
       Main.enrich srv existing_rows projected idx feat cache w
         = (Ret (e, cache), w) /\
       forall record,
         Main.output_record e = Ok record -> drop 7 record = kept) ->
  forall (features : list val) (idx : nat) (cache cache' : gmap string val)
         (t : list event) (records : list (list val)) (w' : world) (i : nat),
    Main.write_features srv existing_rows projected idx features cache
      (World t (Some records)) = (Ret cache', w') ->
    features !! i = Some feat ->
    exists new record,
      written w' = Some (records ++ new) /\
      new !! i = Some record /\
      drop 7 record = kept.
Proof.
  intros Hbody.
  induction features as [|f rest IH];
    intros idx cache cache' t records w' i Hrun Hi; [discriminate|].
  cbn [Main.write_features] in Hrun. unfold bind at 1 in Hrun.
  pose proof (enrich_effect srv keeps_file existing_rows projected idx f
                cache (fun ev _ => keeps_file_request srv ev)
                (World t (Some records))) as Hfile.
  destruct (Main.enrich srv existing_rows projected idx f cache
              (World t (Some records))) as [[[e c]|x|] w1] eqn:He;
    cbn [snd fst] in *; unfold keeps_file in Hfile; cbn [written] in Hfile;
    try discriminate.
  unfold bind at 1 in Hrun.
  destruct (Main.output_record e) as [record|x] eqn:Hrec;
    cbn [lift ret raise] in Hrun; try discriminate.
  unfold bind at 1, writerow at 1 in Hrun. cbn [written trace] in Hrun.
  rewrite Hfile in Hrun.
  destruct i as [|i].
  - cbn in Hi. inversion Hi; subst f.
    destruct (Hbody idx cache (World t (Some records))) as (e' & He' & Htail).
    rewrite He' in He. inversion He; subst e' c w1.
    destruct (write_features_appends srv _ _ _ _ _ _ _ _ _ Hrun)
      as (new & Hw & _ & _).
    exists (record :: new), record. rewrite <- app_assoc in Hw.
    split; [exact Hw|]. split; [reflexivity|]. now apply Htail.
  - cbn in Hi.
    destruct (IH (S idx) c cache' (trace w1) (records ++ [record]) w' i Hrun Hi)
      as (new & r & Hw & Hnew & Htail).
    exists (record :: new), r. rewrite <- app_assoc in Hw.
    split; [exact Hw|]. split; [exact Hnew|exact Htail].
Qed.

(** C1 (as amended).  Take a feature whose OBJECTID, as a string, is the key
    of a record of the previous posts.csv with a non-empty, non-sentinel
    RUE_REVERSE (the last such record, should the file repeat the OBJECTID).

    In the loop, whatever the projected list, the index, the cache and the
    world, the feature gets that record's LON_WGS84, LAT_WGS84 and
    RUE_REVERSE verbatim as the last three cells of its output record, and
    the loop body sends no request for it: the world and the cache are
    unchanged, so the reverse geocoder is not called, and the enriched
    record is the same for every projected list, so the projection's result
    is not used.

    In a run in which the feature is the [idx]-th fetched and the stages
    before the loop return, the projection has nonetheless been called for
    it: its point is in a batch sent to the projection service before the
    loop starts, and all the run sends after that are reverse-geocode
    requests.  When that run returns, the [idx]-th record of the file ends
    with the three values of the previous record. *)
Theorem sync_merge_reuses_existing (before after : list dict) (row : dict)
    (feat : val) (oid label : string) :
  let posts_csv := Some (before ++ row :: after) in
  let existing_rows := Main.load_existing posts_csv in
  let kept :=
    [VStr (cell_text row "LON_WGS84"); VStr (cell_text row "LAT_WGS84");
     VStr label] in
  feature_objectid feat = Ok oid ->
  row_key row = VStr oid ->
  Forall (fun r => row_key r <> VStr oid) after ->
  csv_row row = true ->
  dict_get row "RUE_REVERSE" = Some (VStr label) ->
  label <> "" ->
  upper (strip label) <> "MISSING_RUE" ->
  (exists e,
     Main.lon e = VStr (cell_text row "LON_WGS84") /\
     Main.lat e = VStr (cell_text row "LAT_WGS84") /\
     Main.street_label e = VStr label /\
     (forall record,
        Main.output_record e = Ok record -> drop 7 record = kept) /\
     forall (projected : list val) (idx : nat) (rest : list val)
            (cache : gmap string val) (w : world),
       Main.enrich srv existing_rows projected idx feat cache w
         = (Ret (e, cache), w) /\
       Main.write_features srv existing_rows projected idx (feat :: rest)
           cache w
         = (record <- lift (Main.output_record e) ;;
            writerow record ;;;
            Main.write_features srv existing_rows projected (S idx) rest
              cache) w) /\
  (forall (fuel : nat) (w w1 : world) (features projected : list val)
          (idx : nat),
     sync_inputs srv fuel w = (Ret (features, projected), w1) ->
     features !! idx = Some feat ->
     (exists pt batch earlier later lookups,
        Main.feature_point feat = Ok pt /\
        In pt batch /\
        trace w1 = trace w ++ earlier ++ Project batch :: later /\
        trace (snd (Main.main srv fuel posts_csv w)) = trace w1 ++ lookups /\
        forallb is_reverse lookups = true) /\
     (forall w' : world,
        Main.main srv fuel posts_csv w = (Ret tt, w') ->
        exists records record,
          written w' = Some (Main.HEADER :: records) /\
          records !! idx = Some record /\
          drop 7 record = kept)).
Proof.
  cbv zeta. intros Hoid Hkey Hafter Hcsv Hlabel Hne Hsentinel.
  pose proof (load_existing_last before after row oid Hkey Hafter) as Hrow.
  assert (Hrow_ne : row <> []) by (intros ->; discriminate).
  assert (Htext : cell_text row "RUE_REVERSE" = label)
    by (unfold cell_text; now rewrite Hlabel).
  destruct (enrich_existing_any feat oid Hoid) as (a & g & Henrich).
  set (e := Main.Enriched a g oid (VStr (cell_text row "LON_WGS84"))
              (VStr (cell_text row "LAT_WGS84")) (VStr label)).
  assert (Htail : forall record,
            Main.output_record e = Ok record ->
            drop 7 record =
              [VStr (cell_text row "LON_WGS84");
               VStr (cell_text row "LAT_WGS84"); VStr label])
    by (intros record Hrec;
        exact (output_record_tail e record _ _ eq_refl eq_refl Hrec)).
  assert (Hbody : forall projected idx cache w,
            Main.enrich srv
              (Main.load_existing (Some (before ++ row :: after)))
              projected idx feat cache w = (Ret (e, cache), w)).
  { intros projected idx cache w.
    rewrite (Henrich _ row projected idx cache w Hrow Hrow_ne).
    rewrite !reuse_cell by assumption. now rewrite Htext. }
  split.
  - exists e. repeat split; try assumption.
    + apply Hbody.
    + apply write_features_step, Hbody.
  - intros fuel w w1 features projected idx Hin Hidx. split.
    + destruct (sync_inputs_trace fuel w w1 features projected Hin)
        as (points & fetches & Hpoints & _ & Htrace).
      destruct (Forall2_lookup_l _ _ _ _ _ Hpoints Hidx) as (pt & Hpt & Hfp).
      assert (Hin_pts : In pt (concat (batches points))).
      { rewrite concat_batches. apply list_elem_of_In.
        eapply list_elem_of_lookup_2; eauto. }
      apply in_concat in Hin_pts as (batch & Hbatch & Hin_batch).
      apply (in_map Project) in Hbatch.
      apply in_split in Hbatch as (l1 & l2 & Hsplit).
      destruct (sync_loop_sends (Some (before ++ row :: after))
                  features projected w1) as (lookups & Hloop & Hlookups).
      exists pt, batch, (fetches ++ l1), l2, lookups.
      split; [exact Hfp|]. split; [exact Hin_batch|]. split.
      * rewrite Htrace, Hsplit, <- !app_assoc. reflexivity.
      * rewrite main_split. unfold bind at 1. rewrite Hin.
        split; [exact Hloop|exact Hlookups].
    + intros w'. rewrite main_split. intros H.
      unfold bind at 1 in H. rewrite Hin in H.
      unfold bind at 1, open_for_writing at 1 in H.
      unfold bind at 1, writerow at 1 in H.
      cbn [trace written app fst snd] in H.
      unfold bind at 1 in H.
      destruct (Main.write_features srv _ projected 0 features ∅ _)
        as [[c|x|] w2] eqn:Hloop; try discriminate.
      inversion H; subst w'.
      destruct (write_features_settled _ projected feat _
                  (fun idx cache w =>
                     ex_intro _ e (conj (Hbody projected idx cache w) Htail))
                  _ _ _ _ _ _ _ idx Hloop Hidx)
        as (new & record & Hw & Hnew & Hdrop).
      exists new, record. repeat split; assumption.
Qed.

End MergeRun.

(** ** The properties on the sample world *)

Import Sample.

(** C1 as stated fails: the feature below has a labelled record in the
    previous file, and its point is nonetheless sent to the projection
    service. *)
Lemma sync_merge_still_projects :
  let feat := feature 42 100 200 in
  let run := Main.main (Py := py) (online [feat]) 3 (Some [previous_row]) fresh in
  (feature_objectid (Py := py) feat = Ok "42" /\
   Main.load_existing (Py := py) (Some [previous_row]) !! "42" = Some previous_row /\
   dict_get (Py := py) previous_row "RUE_REVERSE" = Some (VStr "Rue Test")) /\
  fst run = Ret tt /\
  written (snd run) =
    Some [Main.HEADER;
          [VStr "S"; VStr ""; VStr ""; VStr ""; VStr "42"; num 100;
           num 200; VStr "-73.5"; VStr "45.5"; VStr "Rue Test"]] /\
  ~ (forall points,
       In (Project points) (trace (snd run)) ->
       ~ In (point 100 200) points).
Proof.
  cbv zeta. split; [|split; [|split]].
  - repeat split; reflexivity.
  - reflexivity.
  - reflexivity.
  - intros H.
    apply (H [point 100 200]).
    + right. left. reflexivity.
    + left. reflexivity.
Qed.

Lemma sync_merge_reuses_existing_witness :
  let feat := feature 42 100 200 in
  let posts_csv := Some ([] ++ previous_row :: [[("OBJECTID", VStr "7")]]) in
  let run := Main.main (Py := py) (online [feat]) 3 posts_csv fresh in
  (exists e,
     Main.enrich (Py := py) (online []) (Main.load_existing posts_csv)
       [] 0 feat ∅ fresh = (Ret (e, ∅), fresh) /\
     Main.lon e = VStr "-73.5" /\
     Main.lat e = VStr "45.5" /\
     Main.street_label e = VStr "Rue Test") /\
  (exists batch earlier later,
     In (point 100 200) batch /\
     trace (snd (sync_inputs (Py := py) (online [feat]) 3 fresh))
       = earlier ++ Project batch :: later) /\
  (exists records record,
     written (snd run) = Some (Main.HEADER :: records) /\
     records !! 0 = Some record /\
     drop 7 record = [VStr "-73.5"; VStr "45.5"; VStr "Rue Test"]).
Proof.
  cbv zeta.
  pose proof
    (fun srv =>
       sync_merge_reuses_existing (Py := py) srv
         [] [[("OBJECTID", VStr "7")]] previous_row
         (feature 42 100 200) "42" "Rue Test"
         eq_refl eq_refl
         ltac:(repeat constructor; discriminate)
         eq_refl eq_refl
         ltac:(discriminate) ltac:(discriminate)) as Hhyps.
  cbv zeta in Hhyps.
  split; [|split].
  - destruct (Hhyps (online [])) as [(e & Hlon & Hlat & Hlabel & _ & Hbody) _].
    exists e. split; [exact (proj1 (Hbody [] 0 [] ∅ fresh))|].
    repeat split; assumption.
  - destruct (Hhyps (online [feature 42 100 200])) as [_ Hrun].
    destruct (Hrun 3 fresh _ [feature 42 100 200] _ 0 eq_refl eq_refl)
      as [(pt & batch & earlier & later & lookups & Hpt & Hin & Htrace & _) _].
    inversion Hpt; subst pt.
    exists batch, earlier, later. split; [exact Hin|exact Htrace].
  - destruct (Hhyps (online [feature 42 100 200])) as [_ Hrun].
    destruct (Hrun 3 fresh _ [feature 42 100 200] _ 0 eq_refl eq_refl)
      as [_ Hfile].
    exact (Hfile _ eq_refl).
Defined.

Lemma label_selection_witness :
  fst (Main.reverse_geocode (Py := py) (online []) (num (-73)) (num 45)
         ∅ fresh)
    = Ret (VStr "12 rue Test",
           <["-73.000000,45.000000" := VStr "12 rue Test"]> ∅) /\
  fst (FillMissingRues.reverse_geocode (Py := py) (online []) (-73)%Z 45%Z fresh)
    = Ret (VStr "12 rue Test").
Proof.
  destruct (label_selection (Py := py) (online [])
              [("address", VDict address)] address eq_refl eq_refl)
    as (_ & _ & Hsync & Hrepair).
  split.
  - apply Hsync; reflexivity.
  - apply Hrepair; reflexivity.
Defined.

(** C2 as stated fails: when every attempt fails, a row marked with the
    sentinel keeps the sentinel; its RUE_REVERSE is not set to the empty
    string. *)
Lemma repair_failure_keeps_sentinel :
  let req := ReverseGeocode (num (-73)) (num 45) in
  let run := FillMissingRues.main (Py := py) offline (Some [sentinel_row]) fresh in
  fst run = Ret tt /\
  trace (snd run) =
    [req; Sleep (FillMissingRues.backoff 1); req;
     Sleep (FillMissingRues.backoff 2); req;
     Sleep FillMissingRues.SLEEP_SECONDS] /\
  written (snd run) =
    Some [map VStr ["OBJECTID"; "LON_WGS84"; "LAT_WGS84"; "RUE_REVERSE"];
          [VStr "2"; VStr "-73"; VStr "45"; VStr "MISSING_RUE"]] /\
  ~ (forall row',
       fst (FillMissingRues.fill_row (Py := py) offline sentinel_row fresh)
         = Ret row' ->
       dict_get row' "RUE_REVERSE" = Some (VStr "")).
Proof.
  cbv zeta. split; [reflexivity|]. split; [reflexivity|]. split; [reflexivity|].
  intros H. specialize (H sentinel_row eq_refl). discriminate H.
Qed.

Lemma repair_fills_missing_witness :
  exists (label : val) (w1 : world),
    FillMissingRues.reverse_geocode (Py := py) (online []) (-73)%Z 45%Z fresh
      = (Ret label, w1) /\
    FillMissingRues.fill_row (Py := py) (online []) sentinel_row fresh =
      (Ret (if truthy label then dict_set sentinel_row "RUE_REVERSE" label
            else sentinel_row),
       sent w1 (Sleep FillMissingRues.SLEEP_SECONDS)).
Proof.
  destruct (repair_fills_missing (Py := py) (online []) sentinel_row fresh
              "MISSING_RUE" "-73" "45" (-73)%Z 45%Z
              eq_refl eq_refl eq_refl eq_refl eq_refl eq_refl eq_refl eq_refl)
    as (label & w1 & Hrun & _ & Hfill & _).
  exists label, w1. split; assumption.
Defined.


Lemma paginated_fetch_witness :
  Main.fetch_loop (Py := py) (online many_features) 2 0 [] fresh
  = (Ret (concat [replicate 500 (feature 1 0 0); [feature 2 0 0]]),
     World [FetchPage 0 500; FetchPage 500 500] None).
Proof.
  refine (proj1 (proj2 (paginated_fetch (Py := py) (online many_features) fresh)
            [replicate 500 (feature 1 0 0); [feature 2 0 0]] 2 _ _ _)).
  - repeat split.
  - split; [apply Nat.leb_le; reflexivity | apply Nat.ltb_lt; reflexivity].
  - apply Nat.leb_le. reflexivity.
Defined.

Lemma projection_keeps_order_witness :
  exists projected,
    Main.project_batches (Py := py) (online [])
      (py_range 0 2 Main.batch_size) [point 1 2; point 3 4] [] fresh
    = (Ret projected, World [Project [point 1 2; point 3 4]] None) /\
    projected !! 1 = Some (point 4 3).
Proof.
  destruct (proj2 (projection_keeps_order (Py := py) (online [])) to_wgs84
              [point 1 2; point 3 4] fresh)
    as (projected & Hrun & _ & Horder & _).
  - intros history points _. eexists. split; reflexivity.
  - exists projected. split; [exact Hrun|exact (Horder 1)].
Defined.


(** The end-to-end scenario of the repair: a labelled row, a row marked with
    the sentinel and a row without coordinates. *)
Example repair_end_to_end :
  let run :=
    FillMissingRues.main (Py := py) (online [])
      (Some [labelled_row; sentinel_row; blank_row]) fresh in
  fst run = Ret tt /\
  written (snd run) =
    Some [map VStr ["OBJECTID"; "LON_WGS84"; "LAT_WGS84"; "RUE_REVERSE"];
          [VStr "1"; VStr "-73"; VStr "45"; VStr "Rue A"];
          [VStr "2"; VStr "-73"; VStr "45"; VStr "12 rue Test"];
          [VStr "3"; VStr ""; VStr ""; VStr ""]] /\
  trace (snd run) =
    [ReverseGeocode (num (-73)) (num 45); Sleep FillMissingRues.SLEEP_SECONDS].
Proof. cbv zeta. repeat split. Qed.

(** A first sync run: no previous file, one feature. *)
Example sync_first_run :
  let run := Main.main (Py := py) (online [feature 7 100 200]) 3 None fresh in
  fst run = Ret tt /\
  written (snd run) =
    Some [Main.HEADER;
          [VStr "S"; VStr ""; VStr ""; VStr ""; VStr "7"; num 100; num 200;
           num 200; num 100; VStr "12 rue Test"]] /\
  trace (snd run) =
    [FetchPage 0 500; Project [point 100 200];
     ReverseGeocode (num 200) (num 100)].
Proof. cbv zeta. repeat split. Qed.

(** ** Whole runs on the sample world *)

Import Scenarios.

Lemma sync_reuses_unlabelled_row_witness :
  exists e,
    Main.enrich (Py := py) (online []) (Main.load_existing (Some [unlabelled_row]))
      [] 0 (feature 42 100 200) ∅ fresh = (Ret (e, ∅), fresh) /\
    Main.street_label e = VStr "".
Proof.
  destruct (sync_reuses_unlabelled_row (Py := py) (online []) [unlabelled_row]
              unlabelled_row [] 0 (feature 42 100 200) ∅ fresh "42"
              eq_refl eq_refl ltac:(discriminate) eq_refl)
    as (e & He & _ & _ & Hlabel).
  exists e. split; assumption.
Defined.

Lemma sync_feature_without_projection_witness :
  exists e,
    Main.enrich (Py := py) (online []) ∅ [] 0 (feature 7 100 200) ∅ fresh
      = (Ret (e, ∅), fresh) /\
    forall record,
      Main.output_record e = Ok record ->
      drop 7 record = [VStr ""; VStr ""; VStr ""].
Proof.
  exact (sync_feature_without_projection (Py := py) (online []) ∅ [] 0
           (feature 7 100 200) ∅ fresh "7" eq_refl eq_refl (le_n 0)).
Defined.

Lemma sync_writes_one_record_per_feature_witness :
  exists (features projected : list val) (w1 : world)
         (records : list (list val)),
    sync_inputs (Py := py) (online [feature 7 100 200; feature 8 100 200]) 3 fresh
      = (Ret (features, projected), w1) /\
    written (snd (Main.main (Py := py)
                    (online [feature 7 100 200; feature 8 100 200]) 3 None fresh))
      = Some (Main.HEADER :: records) /\
    Forall2 record_for features records.
Proof.
  exact (sync_writes_one_record_per_feature (Py := py)
           (online [feature 7 100 200; feature 8 100 200]) 3 None fresh
           (snd (Main.main (Py := py)
                   (online [feature 7 100 200; feature 8 100 200]) 3 None fresh))
           eq_refl).
Defined.

Lemma sync_failure_before_writing_keeps_file_witness :
  Main.main (Py := py) offline 3 (Some [previous_row]) fresh
    = (Exc URLError, World [FetchPage 0 500] None) /\
  written (World (Py := py) [FetchPage 0 500] None) = written (Py := py) fresh.
Proof.
  exact (sync_failure_before_writing_keeps_file (Py := py) offline 3
           (Some [previous_row]) fresh (World [FetchPage 0 500] None) URLError
           eq_refl).
Defined.

Lemma sync_failure_while_writing_truncates_witness :
  exists records,
    written (snd (Main.main (Py := py) (null_projection [feature 7 100 200]) 3
                    (Some [previous_row]) fresh))
      = Some (Main.HEADER :: records) /\
    Forall2 record_for (take (length records) [feature 7 100 200]) records /\
    length records < length [feature 7 100 200].
Proof.
  exact (sync_failure_while_writing_truncates (Py := py)
           (null_projection [feature 7 100 200]) 3 (Some [previous_row]) fresh
           (World [FetchPage 0 500; Project [point 100 200]] None)
           (snd (Main.main (Py := py) (null_projection [feature 7 100 200]) 3
                   (Some [previous_row]) fresh))
           [feature 7 100 200] [VNone] AttributeError eq_refl eq_refl).
Defined.

Lemma sync_empty_service_leaves_header_only_witness :
  Main.main (Py := py) (online []) 1 (Some [previous_row]) fresh =
    (Ret tt, World ([] ++ [FetchPage 0 Main.PAGE_SIZE]) (Some [Main.HEADER])).
Proof.
  exact (sync_empty_service_leaves_header_only (Py := py) (online []) 0
           (Some [previous_row]) fresh eq_refl).
Defined.


Lemma fetch_loop_never_stops_on_full_pages_witness :
  fst (Main.fetch_loop (Py := py) endless 3 0 [] fresh) = OutOfFuel /\
  exists evs,
    trace (snd (Main.fetch_loop (Py := py) endless 3 0 [] fresh))
      = trace (Py := py) fresh ++ evs /\
    length evs = 3 /\ forallb is_fetch evs = true.
Proof.
  apply (fetch_loop_never_stops_on_full_pages (Py := py) endless 3).
  intros history offset. eexists. split; [reflexivity|].
  apply Nat.leb_le. reflexivity.
Defined.

Lemma repair_changes_only_the_label_witness :
  Forall2 (only_label_filled (Py := py))
    [labelled_row; sentinel_row; blank_row]
    [labelled_row; dict_set sentinel_row "RUE_REVERSE" (VStr "12 rue Test");
     blank_row].
Proof.
  exact (repair_changes_only_the_label (Py := py) (online [])
           [labelled_row; sentinel_row; blank_row] _ fresh
           (World [ReverseGeocode (num (-73)) (num 45);
                   Sleep FillMissingRues.SLEEP_SECONDS] None)
           eq_refl).
Defined.

Lemma repair_of_a_settled_file_is_silent_witness :
  FillMissingRues.main (Py := py) offline (Some [labelled_row; blank_row]) fresh =
    (Ret tt,
     World []
       (Some [map VStr ["OBJECTID"; "LON_WGS84"; "LAT_WGS84"; "RUE_REVERSE"];
              [VStr "1"; VStr "-73"; VStr "45"; VStr "Rue A"];
              [VStr "3"; VStr ""; VStr ""; VStr ""]])).
Proof.
  exact (repair_of_a_settled_file_is_silent (Py := py) offline labelled_row
           [blank_row] fresh eq_refl eq_refl).
Defined.

Lemma projection_concatenates_answers_witness :
  Main.project_batches (Py := py) (null_projection [])
    (py_range 0 2 Main.batch_size) [point 1 2; point 3 4] [] fresh
  = (Ret (concat [[VNone]]),
     World ([] ++ map Project (batches [point 1 2; point 3 4])) None).
Proof.
  refine (proj2 (projection_concatenates_answers (Py := py) (null_projection [])
                   [point 1 2; point 3 4] fresh) [[VNone]] _).
  repeat split.
Defined.

Lemma sync_unreadable_geometry_aborts_witness :
  Main.main (Py := py) (online [feature 7 1 2; null_geometry_feature]) 3
    (Some [previous_row]) fresh
  = (Exc AttributeError, World [FetchPage 0 500] None).
Proof.
  exact (proj1 (sync_unreadable_geometry_aborts (Py := py)
                  (online [feature 7 1 2; null_geometry_feature]) 3
                  (Some [previous_row]) fresh (World [FetchPage 0 500] None)
                  [feature 7 1 2; null_geometry_feature] eq_refl eq_refl)).
Defined.


Lemma repair_short_record_aborts_witness :
  exists w',
    FillMissingRues.main (Py := py) (online [])
      (Some ([sentinel_row] ++ short_record :: [])) fresh
      = (Exc AttributeError, w') /\
    written w' = written (Py := py) fresh /\
    snd (for_each (FillMissingRues.fill_row (Py := py) (online []))
           [sentinel_row] fresh) = w'.
Proof.
  exact (repair_short_record_aborts (Py := py) (online [])
           ["OBJECTID"; "LON_WGS84"; "LAT_WGS84"; "RUE_REVERSE"]
           [sentinel_row] [] short_record fresh eq_refl eq_refl).
Defined.

(** ** The cache on coordinates with seven decimals *)

Import Decimals.

(** C8 as stated fails: -0.0000001 and 0.0000001 are equal after rounding to
    six decimals, yet their six-decimal texts differ in the sign, so the
    second call finds no entry, sends a request of its own and, the service
    failing this time, returns another label. *)
Lemma sync_cache_misses_across_zero :
  let c1 := <["-0.000000,45.500000" := VStr "12 rue Test"]> ∅ in
  let w1 := World [ReverseGeocode just_west north] None in
  round_6 minus_tenth = round_6 plus_tenth /\
  Main.reverse_geocode (Py := py) answers_once just_west north ∅ fresh
    = (Ret (VStr "12 rue Test", c1), w1) /\
  Main.reverse_geocode (Py := py) answers_once just_east north c1 w1
    = (Ret (VStr "", <["0.000000,45.500000" := VStr ""]> c1),
       World [ReverseGeocode just_west north; ReverseGeocode just_east north]
         None).
Proof.
  cbv zeta. split; [|split]; reflexivity.
Qed.

(** Two coordinates with the same six-decimal text, 0.0000011 and 0.0000009:
    the second is served the label of the first, another lookup having come
    between them. *)
Lemma sync_cache_serves_repeat_witness :
  let c1 := <["0.000001,45.500000" := VStr "12 rue Test"]> ∅ in
  let c2 := <["0.000002,45.500000" := VStr "12 rue Test"]> c1 in
  let w1 := World [ReverseGeocode eleven_tenths north] None in
  let w2 :=
    World [ReverseGeocode eleven_tenths north;
           ReverseGeocode two_millionths north] None in
  Main.reverse_geocode (Py := py) labelling eleven_tenths north ∅ fresh
    = (Ret (VStr "12 rue Test", c1), w1) /\
  c1 !! "0.000001,45.500000" = Some (VStr "12 rue Test") /\
  Main.reverse_geocode (Py := py) labelling nine_tenths north c2 w2
    = (Ret (VStr "12 rue Test", c2), w2).
Proof.
  cbv zeta.
  assert (Hfirst :
    Main.reverse_geocode (Py := py) labelling eleven_tenths north ∅ fresh
      = (Ret (VStr "12 rue Test",
              <["0.000001,45.500000" := VStr "12 rue Test"]> ∅),
         World [ReverseGeocode eleven_tenths north] None))
    by reflexivity.
  destruct (sync_cache_serves_repeat (Py := py) labelling
              eleven_tenths north nine_tenths north
              "0.000001" "45.500000" ∅ fresh (VStr "12 rue Test")
              (<["0.000001,45.500000" := VStr "12 rue Test"]> ∅)
              (World [ReverseGeocode eleven_tenths north] None)
              eq_refl eq_refl eq_refl eq_refl Hfirst)
    as (Hstored & Hlater & _).
  split; [exact Hfirst|]. split; [exact Hstored|].
  apply Hlater. apply rtc_once.
  exists two_millionths, north,
    (World [ReverseGeocode eleven_tenths north] None),
    (VStr "12 rue Test"),
    (World [ReverseGeocode eleven_tenths north;
            ReverseGeocode two_millionths north] None).
  reflexivity.
Defined.
